(** * TMdecoder: framing and record decoding of Strateole-2 TM messages

    A shallow embedding of [TMdecoder.py]: the vapour-pressure functions,
    the container framer of class [TMmsg], the RS41 record decoder of class
    [RS41msg] and the frame unpacking of class [LPCmsg].

    Conventions of the embedding.
    - [bytes] objects are [list byte]; Python integers are [Z].
    - Python [float]s are read as real numbers.  An operation that can leave
      the finite reals (a division by a computed value, a negative power, a
      logarithm) returns [option R]: [None] stands for "no finite value",
      which in Python is a raised [ZeroDivisionError] or an [inf]/[nan].
      Rounding is not modelled, and neither is the underflow of [np.exp]:
      the saturation pressure of [Hardy_1998] is positive here at every
      temperature above absolute zero, while the binary64 value is 0.0 below
      about -264 degrees.  The temperatures a record can carry, -100 to
      555.35 degrees, are far from that.
    - Python exceptions are values of [exn], threaded by the monad [result].
    - The UTF-8 decoder, the [xmltodict] reader and [int()] on strings belong
      to the Python runtime, not to this repository: they are the fields of
      the class [Runtime]. *)

From Stdlib Require Import ZArith List Bool Lia Reals Lra.
From Stdlib Require Import Strings.String Strings.Byte.
Import ListNotations.

Local Open Scope Z_scope.

(** ** Exceptions and the error monad *)

Inductive exn : Set :=
| StructError          (* struct.error *)
| IndexError
| KeyError
| TypeError
| ValueError
| ExpatError           (* xml.parsers.expat.ExpatError, raised by xmltodict *)
| UnicodeDecodeError.

Inductive result (A : Type) : Type :=
| Ok (a : A)
| Raise (e : exn).

Arguments Ok {A} a.
Arguments Raise {A} e.

Definition bind {A B : Type} (m : result A) (k : A -> result B) : result B :=
  match m with
  | Ok a => k a
  | Raise e => Raise e
  end.

Notation "x <- m ;; k" := (bind m (fun x => k))
  (at level 61, m at next level, right associativity).

(** A [for] loop that appends one computed item per element. *)
Fixpoint mapM {A B : Type} (f : A -> result B) (l : list A) : result (list B) :=
  match l with
  | [] => Ok []
  | a :: t => b <- f a ;; bs <- mapM f t ;; Ok (b :: bs)
  end.

(** ** Python sequences *)

Definition len {A : Type} (l : list A) : Z := Z.of_nat (List.length l).

(** Normalisation of one bound of a slice [l[a:b]]: a negative bound counts
    from the end, and the result is clamped to [0 .. len l]. *)
Definition clamp (n i : Z) : Z :=
  if i <? 0 then Z.max 0 (i + n) else Z.min i n.

(** [l[a:b]] *)
Definition slice {A : Type} (l : list A) (a b : Z) : list A :=
  let a' := clamp (len l) a in
  let b' := clamp (len l) b in
  firstn (Z.to_nat (b' - a')) (skipn (Z.to_nat a') l).

(** [l[i]] *)
Definition getitem {A : Type} (l : list A) (i : Z) : result A :=
  let j := if i <? 0 then i + len l else i in
  if (j <? 0) || (len l <=? j) then Raise IndexError
  else match nth_error l (Z.to_nat j) with
       | Some a => Ok a
       | None => Raise IndexError
       end.

(** [range(start, stop, step)] for a positive [step] *)
Definition range (start stop step : Z) : list Z :=
  map (fun k => start + Z.of_nat k * step)
      (seq 0 (Z.to_nat ((stop - start + step - 1) / step))).

Fixpoint startswith (p l : list byte) : bool :=
  match p, l with
  | [], _ => true
  | _ :: _, [] => false
  | a :: p', b :: l' => Byte.eqb a b && startswith p' l'
  end.

Fixpoint find_from (i : Z) (l sub : list byte) : Z :=
  if startswith sub l then i
  else match l with
       | [] => -1
       | _ :: t => find_from (i + 1) t sub
       end.

(** [l.find(sub)]: the lowest index where [sub] occurs, [-1] when absent. *)
Definition find (l sub : list byte) : Z := find_from 0 l sub.

(** ** The struct module *)

Definition byte_val (b : byte) : Z := Z.of_N (Byte.to_N b).

(** Big-endian value of a byte string. *)
Definition be_uint (bs : list byte) : Z :=
  fold_left (fun acc b => acc * 256 + byte_val b) bs 0.

(** Two's complement reading of a [bits]-wide unsigned value. *)
Definition to_signed (bits v : Z) : Z :=
  if v <? 2 ^ (bits - 1) then v else v - 2 ^ bits.

(** The [size] bytes read by [struct.unpack_from(fmt, buffer, offset)]:
    a negative offset counts from the end; the read must fit. *)
Definition unpack_bytes (size : Z) (buffer : list byte) (offset : Z)
  : result (list byte) :=
  let off := if offset <? 0 then offset + len buffer else offset in
  if (off <? 0) || (len buffer - off <? size) then Raise StructError
  else Ok (firstn (Z.to_nat size) (skipn (Z.to_nat off) buffer)).

(** format ['B'] *)
Definition unpack_B (buffer : list byte) (offset : Z) : result Z :=
  bs <- unpack_bytes 1 buffer offset ;; Ok (be_uint bs).

(** format ['>H'] *)
Definition unpack_H (buffer : list byte) (offset : Z) : result Z :=
  bs <- unpack_bytes 2 buffer offset ;; Ok (be_uint bs).

(** format ['>L'] *)
Definition unpack_L (buffer : list byte) (offset : Z) : result Z :=
  bs <- unpack_bytes 4 buffer offset ;; Ok (be_uint bs).

(** format ['>l'] *)
Definition unpack_l (buffer : list byte) (offset : Z) : result Z :=
  bs <- unpack_bytes 4 buffer offset ;; Ok (to_signed 32 (be_uint bs)).

(** ** Floating-point operations that may leave the finite reals *)

(** [x / y] for a computed [y] *)
Definition fdiv (x y : R) : option R :=
  if Req_dec_T y 0 then None else Some (x / y)%R.

(** [x ** k] for an integer [k] *)
Definition fpow (x : R) (k : Z) : option R :=
  if (k <? 0) && (if Req_dec_T x 0 then true else false) then None
  else Some (powerRZ x k).

(** [np.log(x)] *)
Definition np_log (x : R) : option R :=
  if Rlt_dec 0 x then Some (ln x) else None.

Definition obind {A B : Type} (m : option A) (k : A -> option B) : option B :=
  match m with
  | Some a => k a
  | None => None
  end.

(** ** Vapour-pressure model *)

Definition HC : list R :=
  [ -2.8365744e3; -6.028076559e3; 1.954263612e1; -2.737830188e-2;
    1.6261698e-5; 7.0229056e-10; -1.8680009e-13 ]%R.

(** One turn of the loop [for c in HC] of [Hardy_1998], on the state
    [(i, lesw)]. *)
Definition Hardy_step (TK : R) (st : Z * option R) (c : R) : Z * option R :=
  let '(i, lesw) := st in
  (i + 1,
   obind lesw (fun l => obind (fpow TK (i - 2)) (fun p => Some (l + c * p)%R))).

Definition Hardy_1998 (TC : R) : option R :=
  let TK := (TC + 273.15)%R in
  let '(_, lesw) := fold_left (Hardy_step TK) HC (0, Some 0%R) in
  obind lesw (fun l =>
  obind (np_log TK) (fun lg =>
  let lesw := (l + 2.7150305 * lg)%R in
  let esw_hPa := (exp lesw / 100)%R in
  Some esw_hPa)).

Definition WV_mixing_ratio (ew_hPa prshPa : R) : option R :=
  let molecw_air := 28.97%R in
  let molecw_h2o := 18.0%R in
  let epsilon := (molecw_h2o / molecw_air)%R in
  let WV_ppmm :=
    option_map (fun q => (q * 1e6)%R)
               (fdiv (epsilon * ew_hPa) (prshPa - ew_hPa)) in
  let WV_ppmv :=
    option_map (fun q => (q * 1e6)%R) (fdiv ew_hPa (prshPa - ew_hPa)) in
  WV_ppmv.

(** The guarded reading of [WV_mixing_ratio]: a mixing ratio is produced only
    when the denominator [prshPa - ew_hPa] is positive.  The code has no such
    guard; the two are compared below. *)
Definition WV_mixing_ratio_guarded (ew_hPa prshPa : R) : option R :=
  if Rlt_dec 0 (prshPa - ew_hPa) then WV_mixing_ratio ew_hPa prshPa else None.

(** Returns the pair [RH_ambient, WV_ppmv]. *)
Definition RS41_RH_wvmr (TC_ambient hPa_ambient rh_reported TC_humSensor : R)
  : option R * option R :=
  match Hardy_1998 TC_humSensor, Hardy_1998 TC_ambient with
  | Some eswhPa_humSensor_temp, Some eswhPa_ambient_temp =>
      let ew_hPa := (eswhPa_humSensor_temp * rh_reported / 100)%R in
      let RH_ambient :=
        option_map (fun q => (q * 100)%R) (fdiv ew_hPa eswhPa_ambient_temp) in
      let WV_ppmv := WV_mixing_ratio ew_hPa hPa_ambient in
      (RH_ambient, WV_ppmv)
  | _, _ => (None, None)
  end.

(** ** What the Python runtime provides *)

(** The value [xmltodict.parse] builds: element text, [None] for an empty
    element, a dict for an element with children. *)
#[warnings="-register-all"]
Inductive xml : Type :=
| XStr (s : string)
| XNone
| XDict (d : list (string * xml)).

Class Runtime : Type := {
  (** [bytes.decode()] *)
  bytes_decode : list byte -> result string;
  (** [xmltodict.parse(text)] *)
  xmltodict_parse : string -> result xml;
  (** [int(text)] *)
  int_of_str : string -> result Z
}.

Fixpoint assoc (k : string) (d : list (string * xml)) : option xml :=
  match d with
  | [] => None
  | (k', v) :: t => if String.eqb k k' then Some v else assoc k t
  end.

(** [v[k]] for a string key [k] *)
Definition subscript (v : xml) (k : string) : result xml :=
  match v with
  | XDict d => match assoc k d with
               | Some x => Ok x
               | None => Raise KeyError
               end
  | XStr _ | XNone => Raise TypeError
  end.

(** [int(v)] *)
Definition py_int `{RT : Runtime} (v : xml) : result Z :=
  match v with
  | XStr s => int_of_str s
  | XNone | XDict _ => Raise TypeError
  end.

(** A bytes literal. *)
Definition bytes_of (s : string) : list byte := list_byte_of_string s.

(** ** class TMmsg *)

Record TMmsg : Type := {
  data : list byte;
  bindata : list byte;
  unix_end_time : Z
}.

Section Framer.
Context `{RT : Runtime}.

Definition delimitedText (data startTxt endTxt : list byte) : result string :=
  let start := find data startTxt in
  let end_ := find data endTxt in
  bytes_decode (slice data start (end_ + len endTxt)).

Definition parse_TM_xml (data : list byte) : result xml :=
  xml_txt <- delimitedText data (bytes_of "<TM>") (bytes_of "</TM>") ;;
  xmltodict_parse xml_txt.

Definition parse_CRC_xml (data : list byte) : result xml :=
  xml_txt <- delimitedText data (bytes_of "<CRC>") (bytes_of "</CRC>") ;;
  xmltodict_parse xml_txt.

(** The bytes literal [b'</CRC>\nSTART'] *)
Definition CRC_START : list byte :=
  bytes_of "</CRC>" ++ [x0a] ++ bytes_of "START".

Definition binaryData (data : list byte) : result (list byte) :=
  tm_xml <- parse_TM_xml data ;;
  tm <- subscript tm_xml "TM" ;;
  length_txt <- subscript tm "Length" ;;
  bin_length <- py_int length_txt ;;
  let bin_start := find data CRC_START + 12 in
  Ok (slice data bin_start (bin_start + bin_length)).

(** The first half of [binaryData] on its own: the value of [bin_length]. *)
Definition declared_length (data : list byte) : result Z :=
  tm_xml <- parse_TM_xml data ;;
  tm <- subscript tm_xml "TM" ;;
  length_txt <- subscript tm "Length" ;;
  py_int length_txt.

Definition timeStamp (bindata : list byte) : result Z :=
  unpack_L bindata 0.

(** [TMmsg.__init__], after the file has been read into [data].  The text
    [formatted_time] is a rendering of [unix_end_time] and is left out. *)
Definition TMmsg_init (data : list byte) : result TMmsg :=
  bindata <- binaryData data ;;
  unix_end_time <- timeStamp bindata ;;
  Ok {| data := data; bindata := bindata; unix_end_time := unix_end_time |}.
End Framer.

(** ** class RS41msg *)

Record RS41Sample : Type := {
  valid : Z;
  secs_from_start : Z;
  air_temp_degC : R;
  humdity_percent : R;
  humidity_sensor_temp_degC : R;
  pres_mb : R;
  module_error : Z;
  rs41_rh_percent : option R;
  wv_mixing_ratio_ppmv : option R;
  (** the key ['unix_time'] is absent until [allRS41samples] sets it *)
  unix_time : option Z
}.

Definition decodeRS41sample (record : list byte) : result RS41Sample :=
  r_valid <- unpack_B record 0 ;;
  r_secs <- unpack_l record 1 ;;
  t_raw <- unpack_H record 5 ;;
  let r_air_temp := (IZR t_raw / 100.0 - 100.0)%R in
  h_raw <- unpack_H record 7 ;;
  let r_humdity := (IZR h_raw / 100.0)%R in
  s_raw <- unpack_H record 9 ;;
  let r_sensor_temp := (IZR s_raw / 100.0 - 100.0)%R in
  p_raw <- unpack_H record 11 ;;
  let r_pres := (IZR p_raw / 50.0)%R in
  r_error <- unpack_H record 13 ;;
  let '(rh, wv) := RS41_RH_wvmr r_air_temp r_pres r_humdity r_sensor_temp in
  Ok {| valid := r_valid;
        secs_from_start := r_secs;
        air_temp_degC := r_air_temp;
        humdity_percent := r_humdity;
        humidity_sensor_temp_degC := r_sensor_temp;
        pres_mb := r_pres;
        module_error := r_error;
        rs41_rh_percent := rh;
        wv_mixing_ratio_ppmv := wv;
        unix_time := None |}.

(** [r['unix_time'] = t] *)
Definition set_unix_time (r : RS41Sample) (t : Z) : RS41Sample :=
  {| valid := valid r;
     secs_from_start := secs_from_start r;
     air_temp_degC := air_temp_degC r;
     humdity_percent := humdity_percent r;
     humidity_sensor_temp_degC := humidity_sensor_temp_degC r;
     pres_mb := pres_mb r;
     module_error := module_error r;
     rs41_rh_percent := rs41_rh_percent r;
     wv_mixing_ratio_ppmv := wv_mixing_ratio_ppmv r;
     unix_time := Some t |}.

Definition record_len : Z := 1 + 4 + 2 + 2 + 2 + 2 + 2.

Definition allRS41samples (self : TMmsg) : result (list RS41Sample) :=
  records <-
    mapM (fun i =>
            let record := slice (bindata self) i (i + record_len) in
            decodeRS41sample record)
         (range 6 (len (bindata self) - 6) record_len) ;;
  last_r <- getitem records (-1) ;;
  first_r <- getitem records 0 ;;
  let start_time :=
    unix_end_time self
    - (secs_from_start last_r - secs_from_start first_r + 1) in
  Ok (map (fun r => set_unix_time r (secs_from_start r + start_time)) records).

(** The first loop of [allRS41samples] on its own: the records before their
    times are set. *)
Definition decoded_slices (self : TMmsg) : result (list RS41Sample) :=
  mapM (fun i => decodeRS41sample (slice (bindata self) i (i + record_len)))
       (range 6 (len (bindata self) - 6) record_len).

Record RS41msg : Type := {
  rs41_msg : TMmsg;
  records : list RS41Sample
}.

(** [RS41msg.__init__] *)
Definition RS41msg_init `{RT : Runtime} (data : list byte) : result RS41msg :=
  self <- TMmsg_init data ;;
  recs <- allRS41samples self ;;
  Ok {| rs41_msg := self; records := recs |}.

(** ** class LPCmsg *)

(** Column [y] of the arrays [HGBins], [LGBins] and [HKData]. *)
Record LPCFrame : Type := {
  HGBins : list Z;
  LGBins : list Z;
  HKData : list R
}.

(** [np.zeros(shape=(16, records))] refuses a negative dimension. *)
Definition np_zeros (records : Z) : result unit :=
  if records <? 0 then Raise ValueError else Ok tt.

Definition HK_convert (unix_end_time : Z) (HKRaw : list Z) : list R :=
  let raw k := nth k HKRaw 0 in
  [ IZR (raw 0%nat + unix_end_time);
    IZR (raw 1%nat); IZR (raw 2%nat); IZR (raw 3%nat);
    IZR (raw 4%nat) / 1000.0; IZR (raw 5%nat) / 1000.0;
    IZR (raw 6%nat) / 1000.0; IZR (raw 7%nat) / 1000.0;
    IZR (raw 8%nat) / 1000.0;
    IZR (raw 9%nat); IZR (raw 10%nat);
    IZR (raw 11%nat) / 100.0 - 273.15; IZR (raw 12%nat) / 100.0 - 273.15;
    IZR (raw 13%nat) / 100.0 - 273.15; IZR (raw 14%nat) / 100.0 - 273.15;
    IZR (raw 15%nat) / 100.0 - 273.15 ]%R.

(** The three reads of one turn of the loop [for x in range(16)]. *)
Definition unpack_words (bindata : list byte) (indx x : Z)
  : result (Z * Z * Z) :=
  hg <- unpack_H bindata (indx + x * 2) ;;
  lg <- unpack_H bindata (indx + x * 2 + 32) ;;
  hk <- unpack_H bindata (indx + x * 2 + 64) ;;
  Ok (hg, lg, hk).

(** One turn of the loop [for y in range(records)]. *)
Definition unpack_frame (self : TMmsg) (y : Z) : result LPCFrame :=
  let indx := 36 + (y + 1) * 96 in
  words <- mapM (unpack_words (bindata self) indx) (range 0 16 1) ;;
  let HKRaw := map snd words in
  Ok {| HGBins := map (fun w => fst (fst w)) words;
        LGBins := map (fun w => snd (fst w)) words;
        HKData := HK_convert (unix_end_time self) HKRaw |}.

(** The arrays are returned as the list of their columns.  [int(n / 96)]
    truncates the quotient, which is [Z.quot]. *)
Definition unpackBinary (self : TMmsg) : result (list LPCFrame) :=
  let records := Z.quot (len (bindata self)) 96 - 2 in
  _ <- np_zeros records ;;
  mapM (unpack_frame self) (range 0 records 1).

(** ** A runtime for plain ASCII containers

    An instance of [Runtime] on which concrete containers can be run.  It
    covers 7-bit text, documents of the shape
    [<root> <k1>text1</k1> ... <kn>textn</kn> </root>] with distinct tags, and
    decimal numerals with an optional sign; there it returns what the Python
    functions return.  Anything else is reported as an error of the
    corresponding Python kind. *)
Module Flat.

Definition is_space (b : byte) : bool :=
  match b with
  | x20 | x09 | x0a | x0d => true
  | _ => false
  end.

Definition is_name_byte (b : byte) : bool :=
  negb (is_space b)
  && negb (Byte.eqb b "<"%byte) && negb (Byte.eqb b ">"%byte)
  && negb (Byte.eqb b "/"%byte).

Fixpoint span (p : byte -> bool) (l : list byte) : list byte * list byte :=
  match l with
  | b :: t => if p b then let '(u, v) := span p t in (b :: u, v)
              else ([], l)
  | [] => ([], [])
  end.

Definition lstrip (l : list byte) : list byte := snd (span is_space l).

Definition strip (l : list byte) : list byte :=
  rev (lstrip (rev (lstrip l))).

Fixpoint drop_prefix (p l : list byte) : option (list byte) :=
  match p, l with
  | [], _ => Some l
  | a :: p', b :: l' => if Byte.eqb a b then drop_prefix p' l' else None
  | _ :: _, [] => None
  end.

(** [<name>] *)
Definition open_tag (l : list byte) : option (list byte * list byte) :=
  match l with
  | "<"%byte :: t =>
      match span is_name_byte t with
      | ((_ :: _) as name, ">"%byte :: rest) => Some (name, rest)
      | _ => None
      end
  | _ => None
  end.

(** [</name>] *)
Definition close_tag (name l : list byte) : option (list byte) :=
  drop_prefix (bytes_of "</" ++ name ++ bytes_of ">") l.

Definition text_value (txt : list byte) : xml :=
  match strip txt with
  | [] => XNone
  | t => XStr (string_of_list_byte t)
  end.

Fixpoint children (fuel : nat) (root l : list byte)
         (acc : list (string * xml)) : option (list (string * xml)) :=
  match fuel with
  | O => None
  | S fuel' =>
      let l := lstrip l in
      match close_tag root l with
      | Some rest =>
          match lstrip rest with
          | [] => Some (rev acc)
          | _ :: _ => None
          end
      | None =>
          match open_tag l with
          | Some (k, r) =>
              let '(txt, r') := span (fun b => negb (Byte.eqb b "<"%byte)) r in
              match close_tag k r' with
              | Some r'' =>
                  children fuel' root r''
                           ((string_of_list_byte k, text_value txt) :: acc)
              | None => None
              end
          | None => None
          end
      end
  end.

Definition parse (text : string) : result xml :=
  let l := lstrip (list_byte_of_string text) in
  match open_tag l with
  | Some (root, rest) =>
      match children (S (List.length rest)) root rest [] with
      | Some d => Ok (XDict [(string_of_list_byte root, XDict d)])
      | None => Raise ExpatError
      end
  | None => Raise ExpatError
  end.

Definition decode (l : list byte) : result string :=
  if forallb (fun b => byte_val b <? 128) l
  then Ok (string_of_list_byte l)
  else Raise UnicodeDecodeError.

Definition digit (b : byte) : option Z :=
  let v := byte_val b in
  if (48 <=? v) && (v <=? 57) then Some (v - 48) else None.

Fixpoint digits (acc : Z) (l : list byte) : option Z :=
  match l with
  | [] => Some acc
  | b :: t => match digit b with
              | Some d => digits (acc * 10 + d) t
              | None => None
              end
  end.

Definition numeral (l : list byte) : option Z :=
  match l with
  | [] => None
  | _ :: _ => digits 0 l
  end.

Definition int (text : string) : result Z :=
  let l := strip (list_byte_of_string text) in
  let signed :=
    match l with
    | "-"%byte :: t => option_map Z.opp (numeral t)
    | "+"%byte :: t => numeral t
    | _ => numeral l
    end in
  match signed with
  | Some z => Ok z
  | None => Raise ValueError
  end.

Definition runtime : Runtime :=
  {| bytes_decode := decode; xmltodict_parse := parse; int_of_str := int |}.

End Flat.


(** ** Bytes at an offset

    The vocabulary in which the record layouts are stated: the value of the
    byte at index [i] of a buffer, and the big-endian integers that start
    there. *)

Definition byte_at (l : list byte) (i : nat) : Z := byte_val (nth i l x00).

Definition u16_at (l : list byte) (i : nat) : Z :=
  byte_at l i * 2 ^ 8 + byte_at l (i + 1).

Definition u32_at (l : list byte) (i : nat) : Z :=
  byte_at l i * 2 ^ 24 + byte_at l (i + 1) * 2 ^ 16
  + byte_at l (i + 2) * 2 ^ 8 + byte_at l (i + 3).

Definition s32_at (l : list byte) (i : nat) : Z :=
  let u := u32_at l i in
  if u <? 2 ^ 31 then u else u - 2 ^ 32.

(** Frame [y] as the layout describes it: read at byte offset
    [36 + (y + 1) * 96] of the payload, sixteen big-endian 16-bit words for
    the high-gain bins, sixteen at [+ 32] for the low-gain bins and sixteen
    at [+ 64] for the housekeeping words.  [unpackBinary] is compared with
    it below. *)
Definition frame_at (self : TMmsg) (y : nat) : LPCFrame :=
  let indx := (36 + (y + 1) * 96)%nat in
  let word (o x : nat) := u16_at (bindata self) (indx + x * 2 + o) in
  {| HGBins := map (word 0%nat) (seq 0 16);
     LGBins := map (word 32%nat) (seq 0 16);
     HKData := HK_convert (unix_end_time self) (map (word 64%nat) (seq 0 16)) |}.

(** ** Sample inputs *)

(** The record [valid=1, secs=1, temp_raw=0x2EE0, hum_raw=0x1388,
    sensorT_raw=0x2EE0, pres_raw=0x2710, err=0]. *)
Definition sample_record : list byte :=
  [ x01; x00; x00; x00; x01; x2e; xe0; x13; x88; x2e; xe0; x27; x10;
    x00; x00 ].

(** A record of fifteen zero bytes: 0 hPa, 0 percent, -100 degrees. *)
Definition zero_record : list byte := repeat x00 15.

(** As [zero_record], with the humidity word set to [0x1388] (50 percent). *)
Definition vacuum_record : list byte :=
  [ x00; x00; x00; x00; x00; x00; x00; x13; x88; x00; x00; x00; x00;
    x00; x00 ].

(** The message object of a payload of at least four bytes, with the time
    stamp [timeStamp] reads from it; the file bytes play no part after
    framing. *)
Definition msg_of_payload (payload : list byte) : TMmsg :=
  {| data := []; bindata := payload; unix_end_time := u32_at payload 0 |}.

(** A payload of 27 zero bytes: pre-header, one record, trailer. *)
Definition zero_payload : list byte := repeat x00 27.

(** A payload of 36 bytes: pre-header, one record, nine more bytes, and a
    trailer whose last two bytes are [0xAB 0xCD]. *)
Definition overlap_payload : list byte := repeat x00 34 ++ [xab; xcd].


(** A container that declares 4 bytes and carries the alphabet. *)
Definition tagged_container : list byte :=
  bytes_of "<TM><Length>4</Length></TM><CRC>1</CRC>" ++ [x0a]
  ++ bytes_of "STARTABCDEFGHIJKLMNOPQRSTUVWXYZ".

(** A container that declares 10 bytes and carries 5. *)
Definition truncated_container : list byte :=
  bytes_of "<TM><Length>10</Length></TM><CRC>1</CRC>" ++ [x0a]
  ++ bytes_of "STARTABCDE".

(** A file with a TM block that declares 27 bytes, ten zero bytes, and no
    CRC block. *)
Definition no_crc_container : list byte :=
  bytes_of "<TM><Length>27</Length></TM>" ++ repeat x00 10.

(** What framing makes of [no_crc_container]: the 27 bytes from index 11. *)
Definition no_crc_msg : TMmsg :=
  {| data := no_crc_container;
     bindata := bytes_of ">27</Length></TM>" ++ repeat x00 10;
     unix_end_time := 1043478332 |}.

(** LPC payloads of 100 and of 288 zero bytes. *)
Definition lpc_payload_100 : list byte := repeat x00 100.
Definition lpc_payload_288 : list byte := repeat x00 288.

(** A payload of 28 zero bytes: one byte more than a record between
    pre-header and trailer. *)
Definition payload_28 : list byte := repeat x00 28.

(** ** Choosing the decoder *)

(** [k in v] for a string [k]: a key of a dict, a substring of a string. *)
Definition contains (v : xml) (k : string) : result bool :=
  match v with
  | XDict d => Ok (match assoc k d with Some _ => true | None => false end)
  | XStr s => Ok (match String.index 0 k s with Some _ => true | None => false end)
  | XNone => Raise TypeError
  end.

(** [v == text] *)
Definition equals_str (v : xml) (text : string) : bool :=
  match v with
  | XStr s => String.eqb s text
  | XNone | XDict _ => false
  end.

(** [determine_msg_type], after the file has been read into [data]; the
    result is the string ['lpc'] or ['rs41']. *)
Definition determine_msg_type `{RT : Runtime} (data : list byte)
  : result string :=
  let msg_type := "lpc"%string in
  msg <- TMmsg_init data ;;
  tm <- parse_TM_xml data ;;
  tm_TM <- subscript tm "TM" ;;
  has <- contains tm_TM "StateMess2" ;;
  if has
  then v <- subscript tm_TM "StateMess2" ;;
       Ok (if equals_str v "RS41" then "rs41"%string else msg_type)
  else Ok msg_type.

(** ** readLPCXML_2021: the binary section and its frames *)

(** The binary section [data] of [parseLCPdatatoCSV]: the bytes between the
    end of the first [START] and the first [END] of the file. *)
Definition LPC2021_data (bindata : list byte) : list byte :=
  let start := find bindata (bytes_of "START") + 5 in
  let end_ := find bindata (bytes_of "END") in
  slice bindata start end_.

(** The rows [parseLCPdatatoCSV] computes from [data], each as the three
    lists [HKData], [HGBins], [LGBins] it concatenates.  The body of the loop
    is, read for read, the one of [LPCmsg.unpackBinary], with [StartTime] for
    the time stamp.  [int(n / 96 - 1)] truncates the quotient
    [(n - 96) / 96], which is [Z.quot]. *)
Definition LPC2021_frames (data : list byte) : result (list LPCFrame) :=
  StartTime <- unpack_L data 0 ;;
  let self :=
    {| data := []; bindata := data; unix_end_time := StartTime |} in
  mapM (unpack_frame self) (range 0 (Z.quot (len data - 96) 96) 1).

(** A container of an RS41 message with a payload of four bytes. *)
Definition rs41_container : list byte :=
  bytes_of "<TM><StateMess2>RS41</StateMess2><Length>4</Length></TM><CRC>1</CRC>"
  ++ [x0a] ++ bytes_of "STARTABCD".

(** A text in which the end marker comes first. *)
Definition reversed_container : list byte :=
  bytes_of "</TM> <Length>4</Length> <TM>".

(** Binary sections of 228 and of 192 zero bytes: one frame after the 132
    bytes that precede the frames, and the same cut 36 bytes short. *)
Definition lpc_payload_228 : list byte := repeat x00 228.
Definition lpc_payload_192 : list byte := repeat x00 192.

(** * Properties *)

(** ** The error monad and the struct readers *)

Lemma bind_Ok {A B : Type} (m : result A) (k : A -> result B) (b : B) :
  bind m k = Ok b -> exists a, m = Ok a /\ k a = Ok b.
Proof.
  destruct m as [a | e]; simpl; intros H.
  - exists a; split; [reflexivity | exact H].
  - discriminate H.
Qed.

Lemma len_nonneg {A : Type} (l : list A) : 0 <= len l.
Proof. unfold len; lia. Qed.

Lemma byte_val_range (b : byte) : 0 <= byte_val b < 256.
Proof.
  unfold byte_val.
  pose proof (Byte.to_N_bounded b) as H.
  lia.
Qed.

Lemma firstn_skipn_nth (d : byte) (k n : nat) (l : list byte) :
  (n + k <= List.length l)%nat ->
  firstn k (skipn n l) = map (fun i => nth (n + i) l d) (seq 0 k).
Proof.
  revert n.
  induction k as [| k IH]; intros n Hn; [reflexivity |].
  destruct (skipn n l) as [| a t] eqn:E.
  - assert (List.length (skipn n l) = 0%nat) as H0 by (rewrite E; reflexivity).
    rewrite length_skipn in H0; lia.
  - assert (nth n l d = a) as Ha.
    { rewrite <- (firstn_skipn n l) at 1.
      rewrite app_nth2; rewrite length_firstn; [| lia].
      replace (n - Nat.min n (List.length l))%nat with 0%nat by lia.
      rewrite E; reflexivity. }
    assert (skipn (S n) l = t) as Ht.
    { replace (S n) with (1 + n)%nat by lia.
      rewrite <- skipn_skipn, E; reflexivity. }
    simpl firstn. cbn [seq map].
    rewrite Nat.add_0_r, Ha. f_equal.
    rewrite <- Ht, IH by lia.
    rewrite <- seq_shift, map_map.
    apply map_ext; intros i. f_equal; lia.
Qed.

Lemma unpack_bytes_ok (size off : Z) (buffer : list byte) :
  0 <= off -> 0 <= size -> off + size <= len buffer ->
  unpack_bytes size buffer off =
  Ok (map (fun i => nth (Z.to_nat off + i) buffer x00)
          (seq 0 (Z.to_nat size))).
Proof.
  intros Hoff Hsize Hfit. unfold unpack_bytes.
  assert ((off <? 0) = false) as E1 by (apply Z.ltb_ge; lia).
  assert ((len buffer - off <? size) = false) as E2 by (apply Z.ltb_ge; lia).
  cbv zeta. rewrite E1. cbv iota. rewrite E1, E2. simpl. f_equal.
  apply firstn_skipn_nth.
  unfold len in Hfit. lia.
Qed.

Lemma unpack_bytes_short (size off : Z) (buffer : list byte) :
  0 <= off -> len buffer < off + size ->
  unpack_bytes size buffer off = Raise StructError.
Proof.
  intros Hoff Hshort. unfold unpack_bytes.
  assert ((off <? 0) = false) as E1 by (apply Z.ltb_ge; lia).
  assert ((len buffer - off <? size) = true) as E2 by (apply Z.ltb_lt; lia).
  cbv zeta. rewrite E1. cbv iota. rewrite E1, E2. reflexivity.
Qed.

Lemma unpack_B_at (buffer : list byte) (off : Z) :
  0 <= off -> off + 1 <= len buffer ->
  unpack_B buffer off = Ok (byte_at buffer (Z.to_nat off)).
Proof.
  intros H0 H1. unfold unpack_B.
  rewrite unpack_bytes_ok by lia.
  simpl. unfold be_uint, byte_at. simpl.
  rewrite Nat.add_0_r. reflexivity.
Qed.

Lemma unpack_H_at (buffer : list byte) (off : Z) :
  0 <= off -> off + 2 <= len buffer ->
  unpack_H buffer off = Ok (u16_at buffer (Z.to_nat off)).
Proof.
  intros H0 H1. unfold unpack_H.
  rewrite unpack_bytes_ok by lia.
  simpl. unfold be_uint, u16_at, byte_at. simpl.
  rewrite Nat.add_0_r. reflexivity.
Qed.

Lemma unpack_L_at (buffer : list byte) (off : Z) :
  0 <= off -> off + 4 <= len buffer ->
  unpack_L buffer off = Ok (u32_at buffer (Z.to_nat off)).
Proof.
  intros H0 H1. unfold unpack_L.
  rewrite unpack_bytes_ok by lia.
  simpl. unfold be_uint, u32_at, byte_at. simpl.
  rewrite Nat.add_0_r. f_equal. lia.
Qed.

Lemma unpack_l_at (buffer : list byte) (off : Z) :
  0 <= off -> off + 4 <= len buffer ->
  unpack_l buffer off = Ok (s32_at buffer (Z.to_nat off)).
Proof.
  intros H0 H1. unfold unpack_l.
  rewrite unpack_bytes_ok by lia.
  simpl. unfold be_uint, s32_at, to_signed, u32_at, byte_at. simpl.
  rewrite Nat.add_0_r. f_equal.
  match goal with
  | |- (if ?a <? _ then _ else _) = (if ?b <? _ then _ else _) =>
      replace a with b by lia
  end.
  reflexivity.
Qed.

Lemma timeStamp_msg_of_payload (payload : list byte) :
  4 <= len payload ->
  timeStamp payload = Ok (unix_end_time (msg_of_payload payload)).
Proof.
  intros H. unfold timeStamp. rewrite unpack_L_at by lia. reflexivity.
Qed.

(** ** The vapour-pressure model *)

Lemma fpow_nonzero (x : R) (k : Z) :
  x <> 0%R -> fpow x k = Some (powerRZ x k).
Proof.
  intros Hx. unfold fpow.
  destruct (Req_dec_T x 0) as [E | _]; [contradiction |].
  rewrite andb_false_r. reflexivity.
Qed.

Lemma np_log_pos (x : R) : (0 < x)%R -> np_log x = Some (ln x).
Proof.
  intros Hx. unfold np_log.
  destruct (Rlt_dec 0 x) as [_ | N]; [reflexivity | contradiction].
Qed.

Lemma fdiv_nonzero (x y : R) : y <> 0%R -> fdiv x y = Some (x / y)%R.
Proof.
  intros Hy. unfold fdiv.
  destruct (Req_dec_T y 0) as [E | _]; [contradiction | reflexivity].
Qed.

Lemma fdiv_zero (x : R) : fdiv x 0 = None.
Proof.
  unfold fdiv.
  destruct (Req_dec_T 0 0) as [_ | N]; [reflexivity | now contradiction N].
Qed.

(** The loop of [Hardy_1998] adds the seven terms [c * TK ** (i - 2)],
    [i = 0 .. 6], so the function is the published fit. *)
Lemma Hardy_1998_formula (TC : R) :
  let TK := (TC + 273.15)%R in
  (0 < TK)%R ->
  Hardy_1998 TC =
  Some (exp (0 + -2.8365744e3 * powerRZ TK (-2)
               + -6.028076559e3 * powerRZ TK (-1)
               + 1.954263612e1 * powerRZ TK 0
               + -2.737830188e-2 * powerRZ TK 1
               + 1.6261698e-5 * powerRZ TK 2
               + 7.0229056e-10 * powerRZ TK 3
               + -1.8680009e-13 * powerRZ TK 4
               + 2.7150305 * ln TK) / 100)%R.
Proof.
  intros TK HTK.
  assert (TK <> 0%R) as Hnz by lra.
  unfold Hardy_1998. fold TK.
  unfold HC. cbn [fold_left]. unfold Hardy_step.
  rewrite !(fpow_nonzero TK) by exact Hnz.
  cbn [obind].
  rewrite (np_log_pos TK HTK).
  reflexivity.
Qed.

Lemma Hardy_1998_defined (TC : R) :
  (0 < TC + 273.15)%R ->
  exists es : R, Hardy_1998 TC = Some es /\ (0 < es)%R.
Proof.
  intros HTK.
  rewrite (Hardy_1998_formula TC HTK).
  eexists; split; [reflexivity |].
  apply Rdiv_lt_0_compat; [apply exp_pos | lra].
Qed.

Lemma WV_mixing_ratio_eq (ew P : R) :
  WV_mixing_ratio ew P =
  option_map (fun q => (q * 1e6)%R) (fdiv ew (P - ew)).
Proof. reflexivity. Qed.

(** ** The RS41 record decoder *)

Lemma decodeRS41sample_eq (record : list byte) :
  List.length record = 15%nat ->
  let t := (IZR (u16_at record 5) / 100.0 - 100.0)%R in
  let h := (IZR (u16_at record 7) / 100.0)%R in
  let s := (IZR (u16_at record 9) / 100.0 - 100.0)%R in
  let p := (IZR (u16_at record 11) / 50.0)%R in
  decodeRS41sample record =
  Ok {| valid := byte_at record 0;
        secs_from_start := s32_at record 1;
        air_temp_degC := t;
        humdity_percent := h;
        humidity_sensor_temp_degC := s;
        pres_mb := p;
        module_error := u16_at record 13;
        rs41_rh_percent := fst (RS41_RH_wvmr t p h s);
        wv_mixing_ratio_ppmv := snd (RS41_RH_wvmr t p h s);
        unix_time := None |}.
Proof.
  intros Hlen t h s p.
  assert (len record = 15) as Hl by (unfold len; rewrite Hlen; reflexivity).
  unfold decodeRS41sample.
  rewrite unpack_B_at, unpack_l_at by lia.
  rewrite !unpack_H_at by lia.
  cbn [bind].
  change (Z.to_nat 0) with 0%nat. change (Z.to_nat 1) with 1%nat.
  change (Z.to_nat 5) with 5%nat. change (Z.to_nat 7) with 7%nat.
  change (Z.to_nat 9) with 9%nat. change (Z.to_nat 11) with 11%nat.
  change (Z.to_nat 13) with 13%nat.
  fold t h s p.
  destruct (RS41_RH_wvmr t p h s) as [rh wv].
  reflexivity.
Qed.

(** A record slice shorter than 15 bytes makes one of the reads fail. *)
Lemma decodeRS41sample_short (record : list byte) :
  (List.length record < 15)%nat ->
  decodeRS41sample record = Raise StructError.
Proof.
  intros Hlen.
  assert (len record < 15) as Hl by (unfold len; lia).
  pose proof (len_nonneg record) as Hn.
  unfold decodeRS41sample, unpack_B, unpack_l, unpack_H.
  destruct (Z_lt_dec (len record) 1);
    [rewrite (unpack_bytes_short 1 0) by lia; reflexivity |].
  rewrite (unpack_bytes_ok 1 0) by lia. cbn [bind].
  destruct (Z_lt_dec (len record) 5);
    [rewrite (unpack_bytes_short 4 1) by lia; reflexivity |].
  rewrite (unpack_bytes_ok 4 1) by lia. cbn [bind].
  destruct (Z_lt_dec (len record) 7);
    [rewrite (unpack_bytes_short 2 5) by lia; reflexivity |].
  rewrite (unpack_bytes_ok 2 5) by lia. cbn [bind].
  destruct (Z_lt_dec (len record) 9);
    [rewrite (unpack_bytes_short 2 7) by lia; reflexivity |].
  rewrite (unpack_bytes_ok 2 7) by lia. cbn [bind].
  destruct (Z_lt_dec (len record) 11);
    [rewrite (unpack_bytes_short 2 9) by lia; reflexivity |].
  rewrite (unpack_bytes_ok 2 9) by lia. cbn [bind].
  destruct (Z_lt_dec (len record) 13);
    [rewrite (unpack_bytes_short 2 11) by lia; reflexivity |].
  rewrite (unpack_bytes_ok 2 11) by lia. cbn [bind].
  rewrite (unpack_bytes_short 2 13) by lia. reflexivity.
Qed.

(** C1. Decoding a 15-byte record slice succeeds, and reads: the validity
    flag from the byte at offset 0, the seconds from start as the signed
    big-endian 32-bit integer at offset 1, the air temperature as the
    big-endian 16-bit value at offset 5 divided by 100 minus 100, the
    humidity as the one at offset 7 divided by 100, the temperature of the
    humidity sensor as the one at offset 9 divided by 100 minus 100, the
    pressure as the one at offset 11 divided by 50, and the error code as the
    one at offset 13, unchanged.  The two derived fields are those of
    [RS41_RH_wvmr] on the decoded values. *)
Theorem C1_decodeRS41sample_layout (record : list byte) :
  List.length record = 15%nat ->
  exists r : RS41Sample,
    decodeRS41sample record = Ok r
    /\ valid r = byte_at record 0
    /\ secs_from_start r = s32_at record 1
    /\ air_temp_degC r = (IZR (u16_at record 5) / 100 - 100)%R
    /\ humdity_percent r = (IZR (u16_at record 7) / 100)%R
    /\ humidity_sensor_temp_degC r = (IZR (u16_at record 9) / 100 - 100)%R
    /\ pres_mb r = (IZR (u16_at record 11) / 50)%R
    /\ module_error r = u16_at record 13
    /\ (rs41_rh_percent r, wv_mixing_ratio_ppmv r) =
       RS41_RH_wvmr (air_temp_degC r) (pres_mb r) (humdity_percent r)
                    (humidity_sensor_temp_degC r).
Proof.
  intros Hlen.
  eexists. split; [apply (decodeRS41sample_eq record Hlen) |].
  cbn [valid secs_from_start air_temp_degC humdity_percent
       humidity_sensor_temp_degC pres_mb module_error rs41_rh_percent
       wv_mixing_ratio_ppmv].
  repeat split; try lra.
  symmetry; apply surjective_pairing.
Qed.

(** The record of the scenario decodes to valid 1, second 1, 20 degrees,
    50 percent, 200 hPa, error 0. *)
Lemma C1_sample_record :
  List.length sample_record = 15%nat
  /\ exists r : RS41Sample,
       decodeRS41sample sample_record = Ok r
       /\ valid r = 1 /\ secs_from_start r = 1
       /\ air_temp_degC r = 20%R /\ humdity_percent r = 50%R
       /\ humidity_sensor_temp_degC r = 20%R
       /\ pres_mb r = 200%R /\ module_error r = 0.
Proof.
  split; [reflexivity |].
  destruct (C1_decodeRS41sample_layout sample_record eq_refl)
    as (r & Hr & Hv & Hs & Ht & Hh & Hst & Hp & He & _).
  exists r. split; [exact Hr |].
  rewrite Hv, Hs, Ht, Hh, Hst, Hp, He.
  change (u16_at sample_record 5) with 12000.
  change (u16_at sample_record 7) with 5000.
  change (u16_at sample_record 9) with 12000.
  change (u16_at sample_record 11) with 10000.
  repeat split; lra.
Defined.

(** ** Ambient humidity and mixing ratio *)

Lemma RS41_RH_wvmr_eq (TC P rh TCs es_s es_a : R) :
  Hardy_1998 TCs = Some es_s ->
  Hardy_1998 TC = Some es_a ->
  RS41_RH_wvmr TC P rh TCs =
  (option_map (fun q => (q * 100)%R) (fdiv (es_s * rh / 100) es_a),
   WV_mixing_ratio (es_s * rh / 100) P).
Proof.
  intros Hs Ha. unfold RS41_RH_wvmr. rewrite Hs, Ha. reflexivity.
Qed.

Lemma Hardy_1998_undefined (TC : R) :
  ~ (0 < TC + 273.15)%R -> Hardy_1998 TC = None.
Proof.
  intros HTK. unfold Hardy_1998.
  destruct (fold_left (Hardy_step (TC + 273.15)) HC (0, Some 0%R))
    as [i lesw].
  unfold np_log.
  destruct (Rlt_dec 0 (TC + 273.15)) as [H | _]; [contradiction |].
  destruct lesw; reflexivity.
Qed.

(** C9 (as amended). When the humidity sensor is at the ambient temperature,
    and that temperature is one a record can carry (-100 to 555.35 degrees),
    the ambient relative humidity is computed and equals the reported one
    within numerical tolerance, for every reported humidity from 0 to 655.35
    percent and every pressure: the two saturation pressures cancel.

    Over the reals the two humidities are equal.  The bound is stated with
    a tolerance and over the ranges of a record because that is what the
    binary64 computation delivers too: the saturation pressure is a normal
    number there, and the product and the three divisions and
    multiplications each round with a relative error of at most 2^-53. *)
Theorem C9_RH_ambient_within_tolerance (TC hPa rh : R) :
  (-100 <= TC <= 555.35)%R ->
  (0 <= rh <= 655.35)%R ->
  exists RH : R,
    fst (RS41_RH_wvmr TC hPa rh TC) = Some RH
    /\ (Rabs (RH - rh) <= 1e-9)%R.
Proof.
  intros HT Hrh.
  destruct (Hardy_1998_defined TC) as (es & Hes & Hpos); [lra |].
  exists (es * rh / 100 / es * 100)%R.
  rewrite (RS41_RH_wvmr_eq TC hPa rh TC es es Hes Hes).
  cbn [fst].
  rewrite fdiv_nonzero by lra.
  cbn [option_map]. split; [reflexivity |].
  replace (es * rh / 100 / es * 100 - rh)%R with 0%R by (field; lra).
  rewrite Rabs_R0. lra.
Qed.

(** At 20 degrees, 1000 hPa and 50 percent. *)
Lemma C9_at_20_degrees :
  (-100 <= 20 <= 555.35)%R
  /\ (0 <= 50 <= 655.35)%R
  /\ exists RH : R,
       fst (RS41_RH_wvmr 20 1000 50 20) = Some RH
       /\ (Rabs (RH - 50) <= 1e-9)%R.
Proof.
  assert (-100 <= 20 <= 555.35)%R as HT by lra.
  assert (0 <= 50 <= 655.35)%R as Hrh by lra.
  split; [exact HT |]. split; [exact Hrh |].
  exact (C9_RH_ambient_within_tolerance 20 1000 50 HT Hrh).
Defined.

(** C9 as claimed fails at absolute zero, with 50 percent reported under
    1000 hPa: [TK] is 0, the first term [TK ** -2] of the fit has no value
    (Python raises ZeroDivisionError), and no humidity is computed. *)
Lemma C9_no_humidity_at_absolute_zero :
  Hardy_1998 (-273.15) = None
  /\ fst (RS41_RH_wvmr (-273.15) 1000 50 (-273.15)) = None
  /\ fst (RS41_RH_wvmr (-273.15) 1000 50 (-273.15)) <> Some 50%R.
Proof.
  assert (Hardy_1998 (-273.15) = None) as Hn
      by (apply Hardy_1998_undefined; lra).
  assert (fst (RS41_RH_wvmr (-273.15) 1000 50 (-273.15)) = None) as Hf
      by (unfold RS41_RH_wvmr; rewrite Hn; reflexivity).
  split; [exact Hn |]. split; [exact Hf |].
  rewrite Hf. discriminate.
Qed.

Lemma u16_at_nonneg (l : list byte) (i : nat) : 0 <= u16_at l i.
Proof.
  unfold u16_at, byte_at.
  pose proof (byte_val_range (nth i l x00)).
  pose proof (byte_val_range (nth (i + 1) l x00)).
  lia.
Qed.

(** Decoded temperatures start at -100 degrees: the fit is defined there. *)
Lemma decoded_temperature_defined (l : list byte) (i : nat) :
  exists es : R,
    Hardy_1998 (IZR (u16_at l i) / 100.0 - 100.0) = Some es /\ (0 < es)%R.
Proof.
  apply Hardy_1998_defined.
  pose proof (IZR_le _ _ (u16_at_nonneg l i)) as H.
  lra.
Qed.

(** The mixing ratio stored in a decoded record is [WV_mixing_ratio] applied
    to the decoded pressure and to the vapour pressure computed from the
    decoded humidity, whatever their values. *)
Lemma decodeRS41sample_mixing_ratio (record : list byte) :
  List.length record = 15%nat ->
  exists (r : RS41Sample) (es : R),
    decodeRS41sample record = Ok r
    /\ Hardy_1998 (humidity_sensor_temp_degC r) = Some es
    /\ wv_mixing_ratio_ppmv r =
       WV_mixing_ratio (es * humdity_percent r / 100) (pres_mb r).
Proof.
  intros Hlen.
  destruct (decoded_temperature_defined record 9) as (es_s & Hs & _).
  destruct (decoded_temperature_defined record 5) as (es_a & Ha & _).
  eexists. exists es_s.
  split; [apply (decodeRS41sample_eq record Hlen) |].
  cbn [humidity_sensor_temp_degC wv_mixing_ratio_ppmv humdity_percent pres_mb].
  split; [exact Hs |].
  rewrite (RS41_RH_wvmr_eq _ _ _ _ es_s es_a Hs Ha). reflexivity.
Qed.

(** C10. [WV_mixing_ratio] divides by [prshPa - ew_hPa].  When the vapour
    pressure is below the pressure that denominator is positive and the
    result is the finite value [ew / (P - ew) * 1e6]; otherwise the
    denominator is zero or negative, and the result is not finite exactly
    when it is zero.  So the guarded reading produces a value, the one of
    the code, exactly under the precondition [ew < P].  Nothing on the way
    from a record guards the division: a decoded record stores
    [WV_mixing_ratio] of its own pressure and vapour pressure, the all-zero
    record reaches the zero denominator, and a record with 0 hPa and 50
    percent humidity reaches a negative one. *)
Theorem C10_WV_mixing_ratio_precondition :
  (forall ew P : R,
      (ew < P)%R ->
      (0 < P - ew)%R
      /\ WV_mixing_ratio ew P = Some (ew / (P - ew) * 1e6)%R)
  /\ (forall ew P : R,
         ~ (ew < P)%R ->
         (P - ew <= 0)%R /\ (WV_mixing_ratio ew P = None <-> P = ew))
  /\ (forall ew P : R,
         (exists q : R, WV_mixing_ratio_guarded ew P = Some q) <-> (ew < P)%R)
  /\ (forall ew P q : R,
         WV_mixing_ratio_guarded ew P = Some q -> WV_mixing_ratio ew P = Some q)
  /\ (forall record : list byte,
         List.length record = 15%nat ->
         exists (r : RS41Sample) (es : R),
           decodeRS41sample record = Ok r
           /\ Hardy_1998 (humidity_sensor_temp_degC r) = Some es
           /\ wv_mixing_ratio_ppmv r =
              WV_mixing_ratio (es * humdity_percent r / 100) (pres_mb r))
  /\ (exists r : RS41Sample,
         decodeRS41sample zero_record = Ok r
         /\ pres_mb r = 0%R /\ humdity_percent r = 0%R
         /\ wv_mixing_ratio_ppmv r = None)
  /\ (exists r : RS41Sample,
         decodeRS41sample vacuum_record = Ok r
         /\ pres_mb r = 0%R /\ humdity_percent r = 50%R
         /\ wv_mixing_ratio_ppmv r = Some (-1e6)%R).
Proof.
  split; [| split; [| split; [| split; [| split; [| split]]]]].
  - intros ew P Hlt. split; [lra |].
    rewrite WV_mixing_ratio_eq, fdiv_nonzero by lra. reflexivity.
  - intros ew P Hge. split; [lra |].
    rewrite WV_mixing_ratio_eq. unfold fdiv.
    destruct (Req_dec_T (P - ew) 0) as [E | N]; cbn [option_map].
    + split; [intros _; lra | reflexivity].
    + split; [discriminate | intros E; exfalso; apply N; lra].
  - intros ew P. unfold WV_mixing_ratio_guarded.
    destruct (Rlt_dec 0 (P - ew)) as [Hpos | Hneg].
    + split; [intros _; lra |]. intros _.
      rewrite WV_mixing_ratio_eq, fdiv_nonzero by lra.
      eexists. reflexivity.
    + split; [intros (q & Hq); discriminate Hq | intros Hlt; lra].
  - intros ew P q. unfold WV_mixing_ratio_guarded.
    destruct (Rlt_dec 0 (P - ew)); [trivial | discriminate].
  - exact decodeRS41sample_mixing_ratio.
  - destruct (decodeRS41sample_mixing_ratio zero_record eq_refl)
      as (r & es & Hr & _ & Hwv).
    exists r. split; [exact Hr |].
    rewrite (decodeRS41sample_eq zero_record eq_refl) in Hr.
    injection Hr as <-.
    cbn [pres_mb humdity_percent] in *.
    change (u16_at zero_record 11) with 0 in *.
    change (u16_at zero_record 7) with 0 in *.
    split; [lra |]. split; [lra |].
    rewrite Hwv, WV_mixing_ratio_eq.
    replace (0 / 50.0 - es * (0 / 100.0) / 100)%R with 0%R by lra.
    rewrite fdiv_zero. reflexivity.
  - destruct (decodeRS41sample_mixing_ratio vacuum_record eq_refl)
      as (r & es & Hr & Hes & Hwv).
    exists r. split; [exact Hr |].
    rewrite (decodeRS41sample_eq vacuum_record eq_refl) in Hr.
    injection Hr as <-.
    cbn [pres_mb humdity_percent humidity_sensor_temp_degC] in *.
    change (u16_at vacuum_record 11) with 0 in *.
    change (u16_at vacuum_record 7) with 5000 in *.
    destruct (decoded_temperature_defined vacuum_record 9) as (es' & Hes' & Hpos).
    rewrite Hes in Hes'. injection Hes' as <-.
    split; [lra |]. split; [lra |].
    rewrite Hwv, WV_mixing_ratio_eq, fdiv_nonzero by lra.
    cbn [option_map]. f_equal. field. lra.
Qed.

(** At vapour pressure 1 under pressure 2, and at 2 under 1. *)
Lemma C10_at_1_below_2 :
  ((1 < 2)%R /\ WV_mixing_ratio 1 2 = Some (1 / (2 - 1) * 1e6)%R)
  /\ (~ (2 < 1)%R /\ (1 - 2 <= 0)%R).
Proof.
  assert (1 < 2)%R as H by lra.
  assert (~ (2 < 1)%R) as N by lra.
  split.
  - split; [exact H |].
    exact (proj2 (proj1 C10_WV_mixing_ratio_precondition 1%R 2%R H)).
  - split; [exact N |].
    exact (proj1 (proj1 (proj2 C10_WV_mixing_ratio_precondition) 2%R 1%R N)).
Defined.

(** ** Sequences *)

Lemma mapM_Forall2 {A B : Type} (f : A -> result B) (l : list A) (bs : list B) :
  mapM f l = Ok bs <-> Forall2 (fun a b => f a = Ok b) l bs.
Proof.
  revert bs. induction l as [| a t IH]; intros bs; simpl.
  - split.
    + intros H; injection H as <-; constructor.
    + intros H; inversion H; reflexivity.
  - split.
    + intros H.
      apply bind_Ok in H as (b & Hb & H).
      apply bind_Ok in H as (bs' & Hbs & H).
      injection H as <-.
      constructor; [exact Hb | apply IH; exact Hbs].
    + intros H. inversion H as [| a' b t' bs' Hb Hbs]; subst.
      rewrite Hb. cbn [bind].
      apply IH in Hbs. rewrite Hbs. reflexivity.
Qed.

Lemma mapM_Raise {A B : Type} (f : A -> result B) (l1 l2 : list A)
      (bs : list B) (a : A) (e : exn) :
  mapM f l1 = Ok bs -> f a = Raise e -> mapM f (l1 ++ a :: l2) = Raise e.
Proof.
  revert bs. induction l1 as [| x t IH]; intros bs H1 Ha; simpl.
  - rewrite Ha. reflexivity.
  - simpl in H1.
    apply bind_Ok in H1 as (b & Hb & H1).
    apply bind_Ok in H1 as (bs' & Hbs & _).
    rewrite Hb. cbn [bind]. rewrite (IH bs' Hbs Ha). reflexivity.
Qed.

Lemma getitem_nil {A : Type} (i : Z) : getitem (@nil A) i = Raise IndexError.
Proof.
  unfold getitem, len. simpl.
  destruct (i <? 0) eqn:E.
  - rewrite Z.add_0_r, E. reflexivity.
  - apply Z.ltb_ge in E.
    assert ((0 <=? i) = true) as E' by (apply Z.leb_le; lia).
    rewrite E'. rewrite orb_true_r. reflexivity.
Qed.

Lemma getitem_first {A : Type} (a : A) (l : list A) : getitem (a :: l) 0 = Ok a.
Proof.
  unfold getitem, len. cbn [Z.ltb Z.compare].
  assert ((Z.of_nat (List.length (a :: l)) <=? 0) = false) as E
      by (apply Z.leb_gt; simpl List.length; lia).
  rewrite E. reflexivity.
Qed.

Lemma getitem_last {A : Type} (l : list A) (a : A) :
  getitem (l ++ [a]) (-1) = Ok a.
Proof.
  unfold getitem, len. cbn [Z.ltb Z.compare].
  rewrite length_app. simpl List.length.
  set (j := -1 + Z.of_nat (List.length l + 1)).
  assert (j = Z.of_nat (List.length l)) as Hj by (unfold j; lia).
  assert ((j <? 0) = false) as E1 by (apply Z.ltb_ge; lia).
  assert ((Z.of_nat (List.length l + 1) <=? j) = false) as E2
      by (apply Z.leb_gt; lia).
  rewrite E1, E2, Hj, Nat2Z.id. cbn [orb].
  rewrite nth_error_app2 by lia. rewrite Nat.sub_diag. reflexivity.
Qed.

Lemma getitem_first_inv {A : Type} (l : list A) (a : A) :
  getitem l 0 = Ok a -> exists t, l = a :: t.
Proof.
  destruct l as [| x t]; intros H.
  - rewrite getitem_nil in H. discriminate H.
  - rewrite getitem_first in H. injection H as ->. exists t. reflexivity.
Qed.

Lemma getitem_last_inv {A : Type} (l : list A) (a : A) :
  getitem l (-1) = Ok a -> exists t, l = t ++ [a].
Proof.
  intros H. destruct l as [| x t].
  - rewrite getitem_nil in H. discriminate H.
  - assert (x :: t <> []) as Hne by discriminate.
    destruct (exists_last Hne) as (t' & a' & E).
    rewrite E in *. rewrite getitem_last in H. injection H as ->.
    exists t'. reflexivity.
Qed.

(** ** Absolute times of the RS41 records *)

Lemma allRS41samples_inv (self : TMmsg) (recs : list RS41Sample) :
  allRS41samples self = Ok recs ->
  exists (records : list RS41Sample) (first_r last_r : RS41Sample),
    decoded_slices self = Ok records
    /\ getitem records 0 = Ok first_r
    /\ getitem records (-1) = Ok last_r
    /\ recs =
       map (fun r =>
              set_unix_time r
                (secs_from_start r
                 + (unix_end_time self
                    - (secs_from_start last_r - secs_from_start first_r + 1))))
           records.
Proof.
  unfold allRS41samples. intros H.
  apply bind_Ok in H as (records & Hrec & H).
  apply bind_Ok in H as (last_r & Hlast & H).
  apply bind_Ok in H as (first_r & Hfirst & H).
  injection H as <-.
  exists records, first_r, last_r. repeat split; assumption.
Qed.

Lemma allRS41samples_of_records (self : TMmsg) (records : list RS41Sample)
      (first_r last_r : RS41Sample) :
  decoded_slices self = Ok records ->
  getitem records 0 = Ok first_r ->
  getitem records (-1) = Ok last_r ->
  allRS41samples self =
  Ok (map (fun r =>
             set_unix_time r
               (secs_from_start r
                + (unix_end_time self
                   - (secs_from_start last_r - secs_from_start first_r + 1))))
          records).
Proof.
  unfold allRS41samples, decoded_slices. intros -> Hf Hl.
  cbn [bind]. rewrite Hl. cbn [bind]. rewrite Hf. reflexivity.
Qed.

(** No record is decoded from a payload of at most 12 bytes, and indexing the
    empty list of records fails. *)
Lemma allRS41samples_no_record (self : TMmsg) :
  len (bindata self) <= 12 -> allRS41samples self = Raise IndexError.
Proof.
  intros Hlen. pose proof (len_nonneg (bindata self)) as Hn.
  unfold allRS41samples, range.
  assert ((len (bindata self) - 6 - 6 + record_len - 1) / record_len = 0) as E
      by (apply Z.div_small; unfold record_len; lia).
  rewrite E. cbn [Z.to_nat seq map mapM bind].
  rewrite getitem_nil. reflexivity.
Qed.

(** The payload of 27 zero bytes holds one record, of second 0. *)
Lemma decoded_slices_zero_payload :
  exists r0 : RS41Sample,
    decoded_slices (msg_of_payload zero_payload) = Ok [r0]
    /\ secs_from_start r0 = 0.
Proof.
  pose proof (decodeRS41sample_eq zero_record eq_refl) as Hd.
  cbv zeta in Hd.
  match type of Hd with _ = Ok ?x => set (r0 := x) in Hd end.
  exists r0. split; [| reflexivity].
  unfold decoded_slices.
  change (range 6 (len (bindata (msg_of_payload zero_payload)) - 6) record_len)
    with [6].
  cbn [mapM].
  change (slice (bindata (msg_of_payload zero_payload)) 6 (6 + record_len))
    with zero_record.
  rewrite Hd. reflexivity.
Qed.

(** C2 (as amended). When the payload yields at least one decoded record,
    [allRS41samples] returns those records, each with the time
    [start_time + secs_from_start], where
    [start_time = unix_end_time - (last - first + 1)] and [first] and [last]
    are the seconds from start of the first and of the final record.  The
    time of the final record is therefore [unix_end_time + first - 1]: it is
    the time stamp of the message exactly when [first] is 1. *)
Theorem C2_unix_time_anchored_on_last
        (self : TMmsg) (records : list RS41Sample) :
  decoded_slices self = Ok records ->
  records <> [] ->
  exists (recs : list RS41Sample) (first_r last_r : RS41Sample),
    allRS41samples self = Ok recs
    /\ getitem recs 0 = Ok first_r
    /\ getitem recs (-1) = Ok last_r
    /\ (let start_time :=
          unix_end_time self
          - (secs_from_start last_r - secs_from_start first_r + 1) in
        recs = map (fun r => set_unix_time r (start_time + secs_from_start r))
                   records
        /\ forall r : RS41Sample,
             In r recs -> unix_time r = Some (start_time + secs_from_start r))
    /\ unix_time last_r =
       Some (unix_end_time self + secs_from_start first_r - 1)
    /\ (unix_time last_r = Some (unix_end_time self)
        <-> secs_from_start first_r = 1).
Proof.
  intros Hrecords Hne.
  assert (exists first0 t, records = first0 :: t) as (first0 & t & E1)
      by (destruct records as [| a l]; [contradiction | exists a, l; reflexivity]).
  destruct (exists_last Hne) as (t' & last0 & E2).
  assert (getitem records 0 = Ok first0) as Hf
      by (rewrite E1; apply getitem_first).
  assert (getitem records (-1) = Ok last0) as Hl
      by (rewrite E2; apply getitem_last).
  set (start_time :=
         unix_end_time self
         - (secs_from_start last0 - secs_from_start first0 + 1)).
  set (g := fun r : RS41Sample =>
              set_unix_time r (start_time + secs_from_start r)).
  assert (allRS41samples self = Ok (map g records)) as Hall.
  { rewrite (allRS41samples_of_records self records first0 last0 Hrecords Hf Hl).
    f_equal. apply map_ext. intros r. unfold g, start_time. f_equal. lia. }
  assert (getitem (map g records) 0 = Ok (g first0)) as Hg0
      by (rewrite E1; cbn [map]; apply getitem_first).
  assert (getitem (map g records) (-1) = Ok (g last0)) as Hg1
      by (rewrite E2, map_app; cbn [map]; apply getitem_last).
  exists (map g records), (g first0), (g last0).
  split; [exact Hall |]. split; [exact Hg0 |]. split; [exact Hg1 |].
  cbn [g secs_from_start set_unix_time unix_time]. fold start_time.
  split; [split; [reflexivity |] | split].
  - intros r Hin. apply in_map_iff in Hin as (r' & <- & _). reflexivity.
  - unfold start_time. f_equal. lia.
  - unfold start_time. split.
    + intros E. injection E as E. lia.
    + intros E. f_equal. lia.
Qed.

(** On the payload of 27 zero bytes. *)
Lemma C2_on_zero_payload :
  exists records : list RS41Sample,
    decoded_slices (msg_of_payload zero_payload) = Ok records
    /\ records <> []
    /\ exists (recs : list RS41Sample) (first_r last_r : RS41Sample),
         allRS41samples (msg_of_payload zero_payload) = Ok recs
         /\ getitem recs 0 = Ok first_r
         /\ getitem recs (-1) = Ok last_r
         /\ unix_time last_r =
            Some (unix_end_time (msg_of_payload zero_payload)
                  + secs_from_start first_r - 1).
Proof.
  destruct decoded_slices_zero_payload as (r0 & Hr0 & _).
  assert ([r0] <> []) as Hne by discriminate.
  exists [r0]. split; [exact Hr0 |]. split; [exact Hne |].
  destruct (C2_unix_time_anchored_on_last _ _ Hr0 Hne)
    as (recs & f & l & Hall & Hf & Hl & _ & Ht & _).
  exists recs, f, l. repeat split; assumption.
Defined.

(** C2 as stated fails: on the payload of 27 zero bytes the time stamp of the
    message is 0 and the final record gets the time -1. *)
Lemma C2_final_time_is_not_the_time_stamp :
  exists (recs : list RS41Sample) (last_r : RS41Sample),
    allRS41samples (msg_of_payload zero_payload) = Ok recs
    /\ getitem recs (-1) = Ok last_r
    /\ unix_end_time (msg_of_payload zero_payload) = 0
    /\ unix_time last_r = Some (-1)
    /\ unix_time last_r <> Some (unix_end_time (msg_of_payload zero_payload)).
Proof.
  destruct decoded_slices_zero_payload as (r0 & Hr0 & Hsecs).
  exists [set_unix_time r0 (-1)], (set_unix_time r0 (-1)).
  split.
  - rewrite (allRS41samples_of_records _ [r0] r0 r0 Hr0
               (getitem_first r0 []) (getitem_last [] r0)).
    cbn [map]. rewrite Hsecs. reflexivity.
  - split; [apply (getitem_last [] (set_unix_time r0 (-1))) |].
    split; [reflexivity |].
    split; [reflexivity |].
    cbn [unix_time set_unix_time]. discriminate.
Qed.

(** ** Slices *)

Lemma clamp_nonneg (n i : Z) : 0 <= n -> 0 <= i -> clamp n i = Z.min i n.
Proof.
  intros Hn Hi. unfold clamp.
  destruct (i <? 0) eqn:E; [apply Z.ltb_lt in E; lia | reflexivity].
Qed.

Lemma slice_inside {A : Type} (l : list A) (a b : Z) :
  0 <= a -> a <= b -> b <= len l ->
  slice l a b = firstn (Z.to_nat (b - a)) (skipn (Z.to_nat a) l).
Proof.
  intros Ha Hab Hb. unfold slice.
  pose proof (len_nonneg l).
  rewrite !clamp_nonneg by lia.
  rewrite !Z.min_l by lia. reflexivity.
Qed.

(** A slice that runs past the end stops at the end. *)
Lemma slice_truncated {A : Type} (l : list A) (a b : Z) :
  0 <= a -> a <= len l -> len l <= b ->
  slice l a b = skipn (Z.to_nat a) l.
Proof.
  intros Ha Hal Hb. unfold slice.
  pose proof (len_nonneg l).
  rewrite !clamp_nonneg by lia.
  rewrite Z.min_r, Z.min_l by lia.
  apply firstn_all2. rewrite length_skipn. unfold len. lia.
Qed.

Lemma len_slice_inside {A : Type} (l : list A) (a b : Z) :
  0 <= a -> a <= b -> b <= len l -> len (slice l a b) = b - a.
Proof.
  intros Ha Hab Hb. rewrite slice_inside by assumption.
  unfold len in *. rewrite length_firstn, length_skipn. lia.
Qed.

Lemma len_slice_truncated {A : Type} (l : list A) (a b : Z) :
  0 <= a -> a <= len l -> len l <= b -> len (slice l a b) = len l - a.
Proof.
  intros Ha Hal Hb. rewrite slice_truncated by assumption.
  unfold len in *. rewrite length_skipn. lia.
Qed.

Lemma nth_slice_inside (l : list byte) (a b : Z) (i : nat) :
  0 <= a -> a <= b -> b <= len l -> Z.of_nat i < b - a ->
  nth i (slice l a b) x00 = nth (Z.to_nat a + i) l x00.
Proof.
  intros Ha Hab Hb Hi. rewrite slice_inside by assumption.
  rewrite (firstn_skipn_nth x00) by (unfold len in Hb; lia).
  rewrite (nth_indep _ x00 (nth (Z.to_nat a + 0) l x00))
    by (rewrite length_map, length_seq; lia).
  rewrite (map_nth (fun j => nth (Z.to_nat a + j) l x00)).
  rewrite seq_nth by lia. reflexivity.
Qed.

(** ** Payloads that are not a whole number of records *)

(** A payload with 1 to 8 bytes between pre-header and trailer: the only
    slice is too short to be read. *)
Lemma allRS41samples_truncated (self : TMmsg) :
  12 < len (bindata self) <= 20 -> allRS41samples self = Raise StructError.
Proof.
  intros Hlen. unfold allRS41samples, range.
  assert ((len (bindata self) - 6 - 6 + record_len - 1) / record_len = 1) as E.
  { unfold record_len. simpl Z.add.
    symmetry. apply (Z.div_unique _ 15 1 (len (bindata self) - 13)); lia. }
  rewrite E. change (Z.to_nat 1) with 1%nat. cbn [seq map mapM].
  cbv beta zeta.
  rewrite decodeRS41sample_short; [reflexivity |].
  assert (len (slice (bindata self) (6 + Z.of_nat 0 * record_len)
                     (6 + Z.of_nat 0 * record_len + record_len))
          = len (bindata self) - 6) as Hs
      by (apply len_slice_truncated; unfold record_len; simpl; lia).
  unfold len in *. lia.
Qed.

(** A record that consumes the trailer.  On the payload of 36 bytes the loop
    takes a second slice at offset 21, which runs over the last six bytes:
    it is decoded as a record, whose error code is the value [0xABCD] of the
    last two bytes of the trailer. *)
Lemma second_record_reads_the_trailer :
  len overlap_payload = 36
  /\ exists r1 r2 : RS41Sample,
       allRS41samples (msg_of_payload overlap_payload) = Ok [r1; r2]
       /\ module_error r2 = u16_at overlap_payload 34
       /\ module_error r2 = 43981.
Proof.
  split; [reflexivity |].
  pose proof (decodeRS41sample_eq zero_record eq_refl) as H1.
  pose proof (decodeRS41sample_eq (repeat x00 13 ++ [xab; xcd]) eq_refl) as H2.
  cbv zeta in H1, H2.
  match type of H1 with _ = Ok ?x => set (r1 := x) in H1 end.
  match type of H2 with _ = Ok ?x => set (r2 := x) in H2 end.
  assert (decoded_slices (msg_of_payload overlap_payload) = Ok [r1; r2]) as Hs.
  { unfold decoded_slices.
    change (range 6 (len (bindata (msg_of_payload overlap_payload)) - 6)
                  record_len) with [6; 21].
    cbn [mapM].
    change (slice (bindata (msg_of_payload overlap_payload)) 6 (6 + record_len))
      with zero_record.
    change (slice (bindata (msg_of_payload overlap_payload)) 21
                  (21 + record_len))
      with (repeat x00 13 ++ [xab; xcd]).
    rewrite H1, H2. reflexivity. }
  eexists. eexists. split.
  - rewrite (allRS41samples_of_records _ [r1; r2] r1 r2 Hs
               (getitem_first r1 [r2]) (getitem_last [r1] r2)).
    cbn [map]. reflexivity.
  - split; reflexivity.
Qed.


(** ** Searching *)

Lemma startswith_firstn (p l : list byte) :
  startswith p l = true ->
  (List.length p <= List.length l)%nat /\ firstn (List.length p) l = p.
Proof.
  revert l. induction p as [| a p IH]; intros l H.
  - split; [simpl; lia | reflexivity].
  - destruct l as [| b l]; [discriminate H |].
    simpl in H. apply andb_true_iff in H as (Hab & Hp).
    apply Byte.byte_dec_bl in Hab. subst b.
    destruct (IH l Hp) as (Hlen & Hfst).
    split; [simpl; lia | simpl; rewrite Hfst; reflexivity].
Qed.

Lemma find_from_found (i : Z) (l sub : list byte) :
  find_from i l sub <> -1 -> 0 <= i ->
  exists k : nat,
    find_from i l sub = i + Z.of_nat k
    /\ (k <= List.length l)%nat
    /\ startswith sub (skipn k l) = true.
Proof.
  revert i. induction l as [| a t IH]; intros i Hp Hi; simpl in *.
  - destruct (startswith sub []) eqn:E.
    + exists 0%nat. repeat split; [lia | lia | exact E].
    + contradiction.
  - destruct (startswith sub (a :: t)) eqn:E.
    + exists 0%nat. repeat split; [lia | lia | exact E].
    + destruct (IH (i + 1) Hp) as (k & Hk & Hle & Hs); [lia |].
      exists (S k). repeat split; [lia | lia | exact Hs].
Qed.

(** Where [find] reports an occurrence, the bytes are there. *)
Lemma find_found (l sub : list byte) (p : Z) :
  find l sub = p -> 0 <= p ->
  p + len sub <= len l /\ slice l p (p + len sub) = sub.
Proof.
  intros Hf Hp. unfold find in Hf.
  destruct (find_from_found 0 l sub) as (k & Hk & Hle & Hs); [lia | lia |].
  rewrite Hf in Hk. simpl in Hk. clear Hf. subst p.
  apply startswith_firstn in Hs as (Hlen & Hfst).
  rewrite length_skipn in Hlen.
  assert (Z.of_nat k + len sub <= len l) as Hfit by (unfold len; lia).
  split; [exact Hfit |].
  pose proof (len_nonneg sub).
  rewrite slice_inside by lia.
  replace (Z.of_nat k + len sub - Z.of_nat k) with (len sub) by lia.
  unfold len. rewrite !Nat2Z.id. exact Hfst.
Qed.

(** ** The framer *)

Section FramerProperties.
Context `{RT : Runtime}.

Lemma binaryData_eq (data : list byte) (L : Z) :
  declared_length data = Ok L ->
  binaryData data =
  Ok (slice data (find data CRC_START + 12) (find data CRC_START + 12 + L)).
Proof.
  unfold declared_length, binaryData. intros H.
  apply bind_Ok in H as (tm_xml & -> & H). cbn [bind].
  apply bind_Ok in H as (tm & -> & H). cbn [bind].
  apply bind_Ok in H as (txt & -> & H). cbn [bind].
  rewrite H. reflexivity.
Qed.

Lemma marker_found (data : list byte) (p : Z) :
  find data CRC_START = p -> 0 <= p ->
  p + 12 <= len data
  /\ slice data p (p + 12) = CRC_START
  /\ slice data p (p + 6) = bytes_of "</CRC>".
Proof.
  intros Hf Hp.
  destruct (find_found data CRC_START p Hf Hp) as (Hfit & Hs).
  change (len CRC_START) with 12 in *.
  repeat split; [exact Hfit | exact Hs |].
  rewrite slice_inside in Hs by lia.
  rewrite slice_inside by lia.
  replace (p + 6 - p) with 6 by lia.
  replace (p + 12 - p) with 12 in Hs by lia.
  change (Z.to_nat 6) with (Nat.min 6 (Z.to_nat 12)).
  rewrite <- firstn_firstn, Hs. reflexivity.
Qed.

(** C8 (as amended). In a container that declares [L] bytes, holds the
    marker [</CRC>\nSTART] and at least [L] bytes after it, the payload
    that framing returns begins 12 bytes past the first byte of the closing
    delimiter [</CRC>], that is 6 bytes past its end, right after
    [\nSTART], and spans exactly [L] bytes. *)
Theorem C8_payload_follows_the_marker (data : list byte) (L p : Z) :
  declared_length data = Ok L ->
  find data CRC_START = p ->
  0 <= p -> 0 <= L -> p + 12 + L <= len data ->
  slice data p (p + 6) = bytes_of "</CRC>"
  /\ slice data p (p + 12) = CRC_START
  /\ exists payload : list byte,
       binaryData data = Ok payload
       /\ payload = slice data (p + 6 + 6) (p + 6 + 6 + L)
       /\ len payload = L
       /\ forall i : nat,
            Z.of_nat i < L ->
            nth i payload x00 = nth (Z.to_nat (p + 12) + i) data x00.
Proof.
  intros HL Hf Hp HL0 Hfit.
  destruct (marker_found data p Hf Hp) as (_ & Hm & Hc).
  split; [exact Hc |]. split; [exact Hm |].
  eexists. split; [rewrite (binaryData_eq data L HL), Hf; reflexivity |].
  replace (p + 6 + 6) with (p + 12) by lia.
  split; [reflexivity |].
  split; [rewrite len_slice_inside; lia |].
  intros i Hi. apply nth_slice_inside; lia.
Qed.

(** C5 (as amended). The declared length is not compared with the bytes
    that are there: when fewer than [L] bytes follow the marker, framing
    raises nothing and returns all of them, a payload shorter than
    declared. *)
Theorem C5_declared_length_is_not_checked (data : list byte) (L p : Z) :
  declared_length data = Ok L ->
  find data CRC_START = p ->
  0 <= p ->
  len data - (p + 12) < L ->
  exists payload : list byte,
    binaryData data = Ok payload
    /\ payload = skipn (Z.to_nat (p + 12)) data
    /\ len payload = len data - (p + 12)
    /\ len payload < L.
Proof.
  intros HL Hf Hp Hshort.
  destruct (marker_found data p Hf Hp) as (Hfit & _).
  eexists. split; [rewrite (binaryData_eq data L HL), Hf; reflexivity |].
  split; [apply slice_truncated; lia |].
  rewrite len_slice_truncated by lia. lia.
Qed.

End FramerProperties.

(** On [tagged_container]: 4 bytes declared, marker at index 33. *)
Lemma C8_on_tagged_container :
  declared_length (RT := Flat.runtime) tagged_container = Ok 4
  /\ find tagged_container CRC_START = 33
  /\ 33 + 12 + 4 <= len tagged_container
  /\ exists payload : list byte,
       binaryData (RT := Flat.runtime) tagged_container = Ok payload
       /\ len payload = 4.
Proof.
  assert (declared_length (RT := Flat.runtime) tagged_container = Ok 4) as HL
      by (vm_compute; reflexivity).
  assert (find tagged_container CRC_START = 33) as Hf
      by (vm_compute; reflexivity).
  assert (33 + 12 + 4 <= len tagged_container) as Hfit
      by (vm_compute; discriminate).
  split; [exact HL |]. split; [exact Hf |]. split; [exact Hfit |].
  destruct (C8_payload_follows_the_marker (RT := Flat.runtime)
              tagged_container 4 33 HL Hf ltac:(lia) ltac:(lia) Hfit)
    as (_ & _ & payload & Hb & _ & Hlen & _).
  exists payload. split; assumption.
Defined.

(** C8 as stated fails: in [tagged_container] the payload is [ABCD], the four
    bytes that start 6 bytes past the end of [</CRC>]; the four bytes that
    start 12 bytes past that end are [GHIJ]. *)
Lemma C8_payload_is_not_12_past_the_end :
  find tagged_container (bytes_of "</CRC>") + len (bytes_of "</CRC>") = 39
  /\ binaryData (RT := Flat.runtime) tagged_container = Ok (bytes_of "ABCD")
  /\ slice tagged_container (39 + 6) (39 + 6 + 4) = bytes_of "ABCD"
  /\ slice tagged_container (39 + 12) (39 + 12 + 4) = bytes_of "GHIJ"
  /\ binaryData (RT := Flat.runtime) tagged_container
     <> Ok (slice tagged_container (39 + 12) (39 + 12 + 4)).
Proof.
  vm_compute. repeat split. discriminate.
Qed.

(** On [truncated_container]: 10 bytes declared, marker at index 34. *)
Lemma C5_on_truncated_container :
  declared_length (RT := Flat.runtime) truncated_container = Ok 10
  /\ find truncated_container CRC_START = 34
  /\ exists payload : list byte,
       binaryData (RT := Flat.runtime) truncated_container = Ok payload
       /\ len payload < 10.
Proof.
  assert (declared_length (RT := Flat.runtime) truncated_container = Ok 10)
    as HL by (vm_compute; reflexivity).
  assert (find truncated_container CRC_START = 34) as Hf
      by (vm_compute; reflexivity).
  split; [exact HL |]. split; [exact Hf |].
  destruct (C5_declared_length_is_not_checked (RT := Flat.runtime)
              truncated_container 10 34 HL Hf ltac:(lia)
              ltac:(vm_compute; reflexivity))
    as (payload & Hb & _ & _ & Hlen).
  exists payload. split; assumption.
Defined.

(** C5 as stated fails: [truncated_container] declares 10 bytes and carries
    5; framing returns the 5 bytes, and the message object is built. *)
Lemma C5_short_payload_is_returned :
  declared_length (RT := Flat.runtime) truncated_container = Ok 10
  /\ binaryData (RT := Flat.runtime) truncated_container
     = Ok (bytes_of "ABCDE")
  /\ TMmsg_init (RT := Flat.runtime) truncated_container
     = Ok {| data := truncated_container;
             bindata := bytes_of "ABCDE";
             unix_end_time := 1094861636 |}.
Proof.
  vm_compute. repeat split.
Qed.

(** C4: a file without CRC block is decoded.  [find] answers -1 for a marker
    that is absent and nothing is raised: [delimitedText] on a text without
    markers returns its last byte, and for [no_crc_container], which has no
    [<CRC>] and no [</CRC>], framing takes the 27 bytes from index
    [-1 + 12], in the middle of the TM block, as the payload, from which the
    RS41 decoder returns one record. *)
Theorem C4_file_without_CRC_block_is_decoded :
  find no_crc_container (bytes_of "<CRC>") = -1
  /\ find no_crc_container (bytes_of "</CRC>") = -1
  /\ delimitedText (RT := Flat.runtime)
       (bytes_of "abc") (bytes_of "<TM>") (bytes_of "</TM>") = Ok "c"%string
  /\ TMmsg_init (RT := Flat.runtime) no_crc_container = Ok no_crc_msg
  /\ exists r : RS41Sample,
       RS41msg_init (RT := Flat.runtime) no_crc_container
       = Ok {| rs41_msg := no_crc_msg; records := [r] |}.
Proof.
  assert (TMmsg_init (RT := Flat.runtime) no_crc_container = Ok no_crc_msg)
    as Hinit by (vm_compute; reflexivity).
  split; [vm_compute; reflexivity |].
  split; [vm_compute; reflexivity |].
  split; [vm_compute; reflexivity |].
  split; [exact Hinit |].
  pose proof (decodeRS41sample_eq
                (slice (bindata no_crc_msg) 6 (6 + record_len)) eq_refl) as Hd.
  cbv zeta in Hd.
  match type of Hd with _ = Ok ?x => set (r0 := x) in Hd end.
  assert (decoded_slices no_crc_msg = Ok [r0]) as Hs.
  { unfold decoded_slices.
    change (range 6 (len (bindata no_crc_msg) - 6) record_len) with [6].
    cbn [mapM]. rewrite Hd. reflexivity. }
  eexists. unfold RS41msg_init. rewrite Hinit. cbn [bind].
  rewrite (allRS41samples_of_records _ [r0] r0 r0 Hs
             (getitem_first r0 []) (getitem_last [] r0)).
  cbn [bind map]. reflexivity.
Qed.

(** ** The LPC frames *)

Lemma mapM_map_Ok {A B C : Type} (f : A -> result B) (g : C -> B)
      (h : C -> A) (l : list C) :
  (forall c, In c l -> f (h c) = Ok (g c)) ->
  mapM f (map h l) = Ok (map g l).
Proof.
  induction l as [| c t IH]; intros H; simpl; [reflexivity |].
  rewrite (H c) by (left; reflexivity). cbn [bind].
  rewrite IH by (intros c' Hc'; apply H; right; exact Hc').
  reflexivity.
Qed.

Lemma range_from_0 (n : Z) : range 0 n 1 = map Z.of_nat (seq 0 (Z.to_nat n)).
Proof.
  unfold range.
  replace ((n - 0 + 1 - 1) / 1) with n by (rewrite Z.div_1_r; lia).
  apply map_ext. intros k. lia.
Qed.

Lemma unpack_words_at (bindata : list byte) (indx x : nat) :
  Z.of_nat indx + Z.of_nat x * 2 + 66 <= len bindata ->
  unpack_words bindata (Z.of_nat indx) (Z.of_nat x) =
  Ok (u16_at bindata (indx + x * 2 + 0),
      u16_at bindata (indx + x * 2 + 32),
      u16_at bindata (indx + x * 2 + 64)).
Proof.
  intros Hfit. unfold unpack_words.
  rewrite !unpack_H_at by lia. cbn [bind].
  replace (Z.to_nat (Z.of_nat indx + Z.of_nat x * 2))
    with (indx + x * 2 + 0)%nat by lia.
  replace (Z.to_nat (Z.of_nat indx + Z.of_nat x * 2 + 32))
    with (indx + x * 2 + 32)%nat by lia.
  replace (Z.to_nat (Z.of_nat indx + Z.of_nat x * 2 + 64))
    with (indx + x * 2 + 64)%nat by lia.
  reflexivity.
Qed.

(** A frame that lies inside the payload is read as [frame_at] says. *)
Lemma unpack_frame_at (self : TMmsg) (y : nat) :
  36 + (Z.of_nat y + 1) * 96 + 96 <= len (bindata self) ->
  unpack_frame self (Z.of_nat y) = Ok (frame_at self y).
Proof.
  intros Hfit. unfold unpack_frame.
  replace (36 + (Z.of_nat y + 1) * 96) with (Z.of_nat (36 + (y + 1) * 96))
    by lia.
  rewrite range_from_0. change (Z.to_nat 16) with 16%nat.
  rewrite (mapM_map_Ok _
             (fun x => (u16_at (bindata self) (36 + (y + 1) * 96 + x * 2 + 0),
                        u16_at (bindata self) (36 + (y + 1) * 96 + x * 2 + 32),
                        u16_at (bindata self) (36 + (y + 1) * 96 + x * 2 + 64)))).
  - cbn [bind]. unfold frame_at. rewrite !map_map. reflexivity.
  - intros x Hx. apply in_seq in Hx.
    apply unpack_words_at. lia.
Qed.

Lemma unpackBinary_eq (self : TMmsg) :
  192 <= len (bindata self) ->
  unpackBinary self =
  Ok (map (frame_at self)
          (seq 0 (Z.to_nat (len (bindata self) / 96 - 2)))).
Proof.
  intros Hlen. unfold unpackBinary.
  rewrite Z.quot_div_nonneg by lia.
  assert (2 <= len (bindata self) / 96) as Hq
      by (apply Z.div_le_lower_bound; lia).
  unfold np_zeros.
  assert ((len (bindata self) / 96 - 2 <? 0) = false) as E
      by (apply Z.ltb_ge; lia).
  rewrite E. cbn [bind].
  rewrite range_from_0.
  apply mapM_map_Ok.
  intros y Hy. apply in_seq in Hy.
  apply unpack_frame_at.
  pose proof (Z.mul_div_le (len (bindata self)) 96 ltac:(lia)).
  lia.
Qed.

(** C3 (as amended). For an LPC payload of at least 192 bytes, [unpackBinary]
    returns [floor (len / 96) - 2] frames, and frame [y] is the one read at
    byte offset [36 + (y + 1) * 96]; a payload of [96 * (N + 2)] bytes gives
    [N] frames. *)
Theorem C3_frame_count_and_offsets (self : TMmsg) :
  192 <= len (bindata self) ->
  exists frames : list LPCFrame,
    unpackBinary self = Ok frames
    /\ len frames = len (bindata self) / 96 - 2
    /\ (forall y : nat,
           Z.of_nat y < len frames ->
           nth_error frames y = Some (frame_at self y))
    /\ (forall N : nat,
           len (bindata self) = 96 * (Z.of_nat N + 2) ->
           List.length frames = N).
Proof.
  intros Hlen.
  assert (2 <= len (bindata self) / 96) as Hq
      by (apply Z.div_le_lower_bound; lia).
  eexists. split; [apply (unpackBinary_eq self Hlen) |].
  assert (len (map (frame_at self)
                   (seq 0 (Z.to_nat (len (bindata self) / 96 - 2))))
          = len (bindata self) / 96 - 2) as Hcount
      by (unfold len at 1; rewrite length_map, length_seq; lia).
  split; [exact Hcount |]. split.
  - intros y Hy. rewrite Hcount in Hy.
    rewrite nth_error_map, nth_error_seq.
    assert ((y <? Z.to_nat (len (bindata self) / 96 - 2))%nat = true) as E
        by (apply Nat.ltb_lt; lia).
    rewrite E. reflexivity.
  - intros N HN. rewrite length_map, length_seq, HN.
    replace (96 * (Z.of_nat N + 2)) with ((Z.of_nat N + 2) * 96) by lia.
    rewrite Z.div_mul by lia. lia.
Qed.

(** On a payload of 288 bytes: one frame. *)
Lemma C3_on_288_bytes :
  192 <= len (bindata (msg_of_payload lpc_payload_288))
  /\ exists frames : list LPCFrame,
       unpackBinary (msg_of_payload lpc_payload_288) = Ok frames
       /\ len frames = 1.
Proof.
  assert (192 <= len (bindata (msg_of_payload lpc_payload_288))) as H
      by (vm_compute; discriminate).
  split; [exact H |].
  destruct (C3_frame_count_and_offsets (msg_of_payload lpc_payload_288) H)
    as (frames & Hu & Hcount & _).
  exists frames. split; [exact Hu |].
  rewrite Hcount. reflexivity.
Defined.

(** C3 as stated fails: a payload of 100 bytes has [floor (100 / 96) - 2 = -1];
    allocating the arrays fails and no frame is decoded. *)
Lemma C3_no_frames_from_100_bytes :
  len lpc_payload_100 / 96 - 2 = -1
  /\ unpackBinary (msg_of_payload lpc_payload_100) = Raise ValueError
  /\ ~ exists frames : list LPCFrame,
         unpackBinary (msg_of_payload lpc_payload_100) = Ok frames
         /\ len frames = len lpc_payload_100 / 96 - 2.
Proof.
  assert (unpackBinary (msg_of_payload lpc_payload_100) = Raise ValueError)
    as H by reflexivity.
  split; [reflexivity |]. split; [exact H |].
  intros (frames & Hf & _). rewrite H in Hf. discriminate Hf.
Qed.

(** ** Payloads of whole records *)

Lemma mapM_total {A B : Type} (f : A -> result B) (l : list A) :
  (forall a, In a l -> exists b, f a = Ok b) ->
  exists bs, mapM f l = Ok bs.
Proof.
  induction l as [| a t IH]; intros H; simpl.
  - exists []. reflexivity.
  - destruct (H a) as (b & Hb); [left; reflexivity |].
    destruct IH as (bs & Hbs); [intros a' Ha'; apply H; right; exact Ha' |].
    exists (b :: bs). rewrite Hb. cbn [bind]. rewrite Hbs. reflexivity.
Qed.

Lemma Forall2_nth_error {A B : Type} (R : A -> B -> Prop)
      (l : list A) (bs : list B) (k : nat) (a : A) :
  Forall2 R l bs -> nth_error l k = Some a ->
  exists b, nth_error bs k = Some b /\ R a b.
Proof.
  intros H. revert k. induction H as [| x y l' bs' Hxy _ IH]; intros k Hk.
  - destruct k; discriminate Hk.
  - destruct k as [| k]; simpl in *.
    + injection Hk as ->. exists y. split; [reflexivity | exact Hxy].
    + apply IH. exact Hk.
Qed.

(** The offsets of the loop [for i in range(6, len - 6, record_len)] when
    [rem] bytes, fewer than a record, follow [n] whole records. *)
Lemma range_of_records (L : Z) (n : nat) (rem : Z) :
  L = 12 + 15 * Z.of_nat n + rem -> 0 <= rem < 15 ->
  range 6 (L - 6) record_len =
  map (fun k => 6 + Z.of_nat k * 15)
      (seq 0 (if rem =? 0 then n else n + 1)).
Proof.
  intros HL Hrem. unfold range, record_len. simpl Z.add.
  f_equal. f_equal.
  destruct (rem =? 0) eqn:E.
  - apply Z.eqb_eq in E.
    replace (L - 6 - 6 + 15 - 1) with (Z.of_nat n * 15 + 14) by lia.
    rewrite Z.div_add_l by lia.
    replace (14 / 15) with 0 by reflexivity. lia.
  - apply Z.eqb_neq in E.
    replace (L - 6 - 6 + 15 - 1) with ((Z.of_nat n + 1) * 15 + (rem - 1))
      by lia.
    rewrite Z.div_add_l by lia.
    rewrite Z.div_small by lia. lia.
Qed.

Lemma whole_slice_decodes (self : TMmsg) (k : nat) :
  6 + Z.of_nat k * 15 + 15 <= len (bindata self) ->
  exists r, decodeRS41sample
              (slice (bindata self) (6 + Z.of_nat k * 15)
                     (6 + Z.of_nat k * 15 + record_len)) = Ok r.
Proof.
  intros Hfit. eexists. apply decodeRS41sample_eq.
  assert (len (slice (bindata self) (6 + Z.of_nat k * 15)
                     (6 + Z.of_nat k * 15 + record_len)) = 15) as H
      by (rewrite len_slice_inside; unfold record_len; lia).
  unfold len in H. lia.
Qed.

Lemma allRS41samples_Raise (self : TMmsg) (e : exn) :
  decoded_slices self = Raise e -> allRS41samples self = Raise e.
Proof.
  unfold allRS41samples, decoded_slices. intros ->. reflexivity.
Qed.

(** C6 (as amended). When the payload is 12 bytes longer than [n >= 1]
    records, decoding returns [n] records; record [k] is decoded from the
    bytes [6 + 15 k] to [6 + 15 k + 14], which end before the six bytes of
    the trailer.  Decoding does not stop at a short remainder: when 1 to 8
    bytes are left between the last whole record and the trailer, it raises
    [struct.error]. *)
Theorem C6_whole_records_or_struct_error (self : TMmsg) (n : nat) :
  ((0 < n)%nat ->
   len (bindata self) = 12 + 15 * Z.of_nat n ->
   exists recs : list RS41Sample,
     allRS41samples self = Ok recs
     /\ List.length recs = n
     /\ forall k : nat,
          (k < n)%nat ->
          6 + 15 * Z.of_nat k + 15 <= len (bindata self) - 6
          /\ exists (r0 : RS41Sample) (t : Z),
               decodeRS41sample
                 (slice (bindata self) (6 + 15 * Z.of_nat k)
                        (6 + 15 * Z.of_nat k + 15)) = Ok r0
               /\ nth_error recs k = Some (set_unix_time r0 t))
  /\ (forall rem : Z,
         1 <= rem <= 8 ->
         len (bindata self) = 12 + 15 * Z.of_nat n + rem ->
         allRS41samples self = Raise StructError).
Proof.
  split.
  - intros Hn HL.
    pose proof (range_of_records (len (bindata self)) n 0 ltac:(lia) ltac:(lia))
      as Hrange.
    cbn [Z.eqb] in Hrange.
    destruct (mapM_total
                (fun i => decodeRS41sample
                            (slice (bindata self) i (i + record_len)))
                (range 6 (len (bindata self) - 6) record_len))
      as (records & Hrecords).
    { rewrite Hrange. intros i Hi.
      apply in_map_iff in Hi as (k & <- & Hk). apply in_seq in Hk.
      apply whole_slice_decodes. lia. }
    pose proof Hrecords as HF. apply mapM_Forall2 in HF.
    assert (List.length records = n) as Hcount.
    { apply Forall2_length in HF. rewrite <- HF, Hrange.
      rewrite length_map, length_seq. reflexivity. }
    destruct records as [| first_r t]; [simpl in Hcount; lia |].
    assert (first_r :: t <> []) as Hne by discriminate.
    destruct (exists_last Hne) as (t' & last_r & Hlast).
    pose proof (getitem_first first_r t) as Hg0.
    pose proof (getitem_last t' last_r) as Hg1. rewrite <- Hlast in Hg1.
    eexists.
    split; [apply (allRS41samples_of_records self _ _ _ Hrecords Hg0 Hg1) |].
    split; [rewrite length_map; exact Hcount |].
    intros k Hk. split; [lia |].
    destruct (Forall2_nth_error _ _ _ k (6 + Z.of_nat k * 15) HF)
      as (r0 & Hnth & Hdec).
    { rewrite Hrange, nth_error_map, nth_error_seq.
      assert ((k <? n)%nat = true) as E by (apply Nat.ltb_lt; exact Hk).
      rewrite E. reflexivity. }
    exists r0. eexists.
    replace (6 + 15 * Z.of_nat k) with (6 + Z.of_nat k * 15) by lia.
    split; [exact Hdec |].
    rewrite nth_error_map, Hnth. reflexivity.
  - intros rem Hrem HL.
    apply allRS41samples_Raise. unfold decoded_slices.
    rewrite (range_of_records _ n rem HL) by lia.
    assert ((rem =? 0) = false) as E by (apply Z.eqb_neq; lia).
    rewrite E, seq_app, map_app. cbn [seq map Nat.add].
    destruct (mapM_total
                (fun i => decodeRS41sample
                            (slice (bindata self) i (i + record_len)))
                (map (fun k => 6 + Z.of_nat k * 15) (seq 0 n)))
      as (bs & Hbs).
    { intros i Hi.
      apply in_map_iff in Hi as (k & <- & Hk). apply in_seq in Hk.
      apply whole_slice_decodes. lia. }
    apply (mapM_Raise _ _ [] bs _ _ Hbs).
    apply decodeRS41sample_short.
    assert (len (slice (bindata self) (6 + Z.of_nat n * 15)
                       (6 + Z.of_nat n * 15 + record_len))
            = len (bindata self) - (6 + Z.of_nat n * 15)) as Hs
        by (apply len_slice_truncated; unfold record_len; lia).
    unfold len in *. lia.
Qed.

(** On the payloads of 27 and of 28 bytes. *)
Lemma C6_on_zero_payload :
  ((0 < 1)%nat
   /\ len (bindata (msg_of_payload zero_payload)) = 12 + 15 * Z.of_nat 1
   /\ exists recs : list RS41Sample,
        allRS41samples (msg_of_payload zero_payload) = Ok recs
        /\ List.length recs = 1%nat)
  /\ (1 <= 1 <= 8
      /\ len (bindata (msg_of_payload payload_28)) = 12 + 15 * Z.of_nat 1 + 1
      /\ allRS41samples (msg_of_payload payload_28) = Raise StructError).
Proof.
  assert (0 < 1)%nat as Hn by lia.
  assert (len (bindata (msg_of_payload zero_payload)) = 12 + 15 * Z.of_nat 1)
    as HL by reflexivity.
  assert (1 <= 1 <= 8) as Hrem by lia.
  assert (len (bindata (msg_of_payload payload_28)) = 12 + 15 * Z.of_nat 1 + 1)
    as HL' by reflexivity.
  split.
  - split; [exact Hn |]. split; [exact HL |].
    destruct (proj1 (C6_whole_records_or_struct_error
                       (msg_of_payload zero_payload) 1) Hn HL)
      as (recs & Hr & Hcount & _).
    exists recs. split; assumption.
  - split; [exact Hrem |]. split; [exact HL' |].
    exact (proj2 (C6_whole_records_or_struct_error
                    (msg_of_payload payload_28) 1) 1 Hrem HL').
Defined.

(** C6 as stated fails: the payload of 28 bytes holds one whole record and
    one more byte before the trailer; decoding does not stop after the
    record, it raises [struct.error]. *)
Lemma C6_no_stop_at_a_short_remainder :
  len payload_28 - 6 - 6 = 15 + 1
  /\ allRS41samples (msg_of_payload payload_28) = Raise StructError
  /\ ~ exists recs : list RS41Sample,
         allRS41samples (msg_of_payload payload_28) = Ok recs.
Proof.
  assert (allRS41samples (msg_of_payload payload_28) = Raise StructError) as H.
  { apply allRS41samples_Raise. unfold decoded_slices.
    change (range 6 (len (bindata (msg_of_payload payload_28)) - 6) record_len)
      with ([6] ++ [21]).
    destruct (whole_slice_decodes (msg_of_payload payload_28) 0) as (r & Hr);
      [vm_compute; discriminate |].
    apply (mapM_Raise _ [6] [] [r]).
    - cbn [mapM]. change (6 + Z.of_nat 0 * 15) with 6 in Hr.
      rewrite Hr. reflexivity.
    - apply decodeRS41sample_short. vm_compute. lia. }
  split; [reflexivity |]. split; [exact H |].
  intros (recs & Hrecs). rewrite H in Hrecs. discriminate Hrecs.
Qed.

(** * Further properties of the code *)

(** ** Saturation pressure and mixing ratio *)

(** X1. [Hardy_1998] has a positive value at every temperature a record can
    carry, from -100 to 555.35 degrees, and no value at or below absolute
    zero. *)
Theorem Hardy_1998_domain (TC : R) :
  ((-100 <= TC <= 555.35)%R ->
   exists es : R, Hardy_1998 TC = Some es /\ (0 < es)%R)
  /\ ((TC <= -273.15)%R -> Hardy_1998 TC = None).
Proof.
  split.
  - intros HT. apply Hardy_1998_defined. lra.
  - intros HT. apply Hardy_1998_undefined. lra.
Qed.

(** At 20 degrees and at absolute zero. *)
Lemma Hardy_1998_at_20_degrees_and_at_absolute_zero :
  (exists es : R, Hardy_1998 20 = Some es /\ (0 < es)%R)
  /\ Hardy_1998 (-273.15) = None.
Proof.
  split.
  - apply (proj1 (Hardy_1998_domain 20)). lra.
  - apply (proj2 (Hardy_1998_domain (-273.15))). lra.
Defined.

(** X3. Below the pressure, the mixing ratio has a value, is not negative
    and does not decrease when the vapour pressure grows. *)
Theorem WV_mixing_ratio_monotone (ew1 ew2 P : R) :
  (0 <= ew1)%R -> (ew1 <= ew2)%R -> (ew2 < P)%R ->
  exists q1 q2 : R,
    WV_mixing_ratio ew1 P = Some q1
    /\ WV_mixing_ratio ew2 P = Some q2
    /\ (0 <= q1 <= q2)%R.
Proof.
  intros H0 H12 H2P.
  exists (ew1 / (P - ew1) * 1e6)%R, (ew2 / (P - ew2) * 1e6)%R.
  rewrite !WV_mixing_ratio_eq, !fdiv_nonzero by lra. cbn [option_map].
  split; [reflexivity |]. split; [reflexivity |].
  assert (0 < P - ew1)%R as Ha by lra.
  assert (0 < P - ew2)%R as Hb by lra.
  assert (0 < / (P - ew1))%R as Hia by (apply Rinv_0_lt_compat; exact Ha).
  assert (0 < / (P - ew2))%R as Hib by (apply Rinv_0_lt_compat; exact Hb).
  split; [unfold Rdiv; nra |].
  assert (ew2 / (P - ew2) - ew1 / (P - ew1)
          = (ew2 - ew1) * P * (/ (P - ew1) * / (P - ew2)))%R as E
      by (field; lra).
  assert (0 <= (ew2 - ew1) * P * (/ (P - ew1) * / (P - ew2)))%R as Hpos.
  { apply Rmult_le_pos; [nra |].
    apply Rmult_le_pos; left; assumption. }
  lra.
Qed.

(** With 10 and 20 hPa of vapour under 1000 hPa. *)
Lemma WV_mixing_ratio_at_10_and_20 :
  exists q1 q2 : R,
    WV_mixing_ratio 10 1000 = Some q1
    /\ WV_mixing_ratio 20 1000 = Some q2
    /\ (0 <= q1 <= q2)%R.
Proof.
  exact (WV_mixing_ratio_monotone 10 20 1000
           ltac:(lra) ltac:(lra) ltac:(lra)).
Defined.

(** ** More on slices and searching *)

Lemma firstn_add {A : Type} (n m : nat) (l : list A) :
  firstn (n + m) l = firstn n l ++ firstn m (skipn n l).
Proof.
  revert l. induction n as [| n IH]; intros l; [reflexivity |].
  destruct l as [| a t]; simpl.
  - rewrite firstn_nil. reflexivity.
  - rewrite IH. reflexivity.
Qed.

Lemma slice_app {A : Type} (l : list A) (a b c : Z) :
  0 <= a -> a <= b -> b <= c -> c <= len l ->
  slice l a c = slice l a b ++ slice l b c.
Proof.
  intros Ha Hab Hbc Hc.
  rewrite !slice_inside by lia.
  replace (Z.to_nat (c - a)) with (Z.to_nat (b - a) + Z.to_nat (c - b))%nat
    by lia.
  rewrite firstn_add, skipn_skipn.
  replace (Z.to_nat (b - a) + Z.to_nat a)%nat with (Z.to_nat b) by lia.
  reflexivity.
Qed.

Lemma slice_backwards {A : Type} (l : list A) (a b : Z) :
  0 <= b -> b <= a -> slice l a b = [].
Proof.
  intros Hb Hba. unfold slice.
  pose proof (len_nonneg l).
  rewrite !clamp_nonneg by lia.
  replace (Z.to_nat (Z.min b (len l) - Z.min a (len l))) with 0%nat by lia.
  reflexivity.
Qed.

Lemma len_slice_forwards {A : Type} (l : list A) (a b : Z) :
  0 <= a -> a <= b ->
  len (slice l a b) = Z.min b (len l) - Z.min a (len l).
Proof.
  intros Ha Hab. unfold slice.
  pose proof (len_nonneg l).
  rewrite !clamp_nonneg by lia.
  unfold len in *. rewrite length_firstn, length_skipn. lia.
Qed.

Lemma find_from_bounds (i : Z) (l sub : list byte) :
  find_from i l sub = -1
  \/ i <= find_from i l sub <= i + len l.
Proof.
  revert i. induction l as [| a t IH]; intros i; simpl.
  - destruct (startswith sub []); [right; unfold len; simpl; lia | left; reflexivity].
  - destruct (startswith sub (a :: t)).
    + right. unfold len. simpl List.length. lia.
    + destruct (IH (i + 1)) as [H | H]; [left; exact H |].
      right. unfold len in *. simpl List.length. lia.
Qed.

Lemma find_bounds (l sub : list byte) : -1 <= find l sub <= len l.
Proof.
  unfold find. pose proof (len_nonneg l) as Hn.
  destruct (find_from_bounds 0 l sub) as [H | H]; lia.
Qed.

(** ** More on the framer *)

Section FramerOutcomes.
Context `{RT : Runtime}.

(** X4. When the end marker is found after the start marker, [delimitedText]
    decodes the start marker, the bytes between the two and the end marker.
    When the first end marker lies wholly before the start marker, it decodes
    the empty byte string. *)
Theorem delimitedText_between (data startTxt endTxt : list byte) (s e : Z) :
  find data startTxt = s ->
  find data endTxt = e ->
  0 <= s -> 0 <= e ->
  (s + len startTxt <= e ->
   delimitedText data startTxt endTxt =
   bytes_decode (startTxt ++ slice data (s + len startTxt) e ++ endTxt))
  /\ (e + len endTxt <= s ->
      delimitedText data startTxt endTxt = bytes_decode []).
Proof.
  intros Hs He Hs0 He0.
  destruct (find_found data startTxt s Hs Hs0) as (Hsfit & Hsm).
  destruct (find_found data endTxt e He He0) as (Hefit & Hem).
  pose proof (len_nonneg startTxt). pose proof (len_nonneg endTxt).
  unfold delimitedText. rewrite Hs, He. split; intros Hord.
  - rewrite (slice_app data s (s + len startTxt) (e + len endTxt)) by lia.
    rewrite (slice_app data (s + len startTxt) e (e + len endTxt)) by lia.
    rewrite Hsm, Hem. reflexivity.
  - rewrite slice_backwards by lia. reflexivity.
Qed.

Lemma binaryData_Raise (data : list byte) (e : exn) :
  declared_length data = Raise e -> binaryData data = Raise e.
Proof.
  unfold declared_length, binaryData. intros H.
  destruct (parse_TM_xml data) as [tm_xml | e1]; cbn [bind] in *;
    [| injection H as ->; reflexivity].
  destruct (subscript tm_xml "TM") as [tm | e2]; cbn [bind] in *;
    [| injection H as ->; reflexivity].
  destruct (subscript tm "Length") as [txt | e3]; cbn [bind] in *;
    [| injection H as ->; reflexivity].
  rewrite H. reflexivity.
Qed.

(** X5. [binaryData] fails exactly when the declared length cannot be read,
    with the same exception: never for a missing marker or a short file.
    For a declared length [L >= 0] the payload holds [L] bytes or, when the
    file ends before, the bytes that follow the start offset: it is never
    longer than declared. *)
Theorem binaryData_outcome (data : list byte) :
  (forall e : exn,
      binaryData data = Raise e <-> declared_length data = Raise e)
  /\ (forall L : Z,
         declared_length data = Ok L -> 0 <= L ->
         exists payload : list byte,
           binaryData data = Ok payload
           /\ len payload =
              Z.min L (Z.max 0 (len data - (find data CRC_START + 12)))
           /\ len payload <= L).
Proof.
  split.
  - intros e. destruct (declared_length data) as [L | e'] eqn:E.
    + rewrite (binaryData_eq data L E). split; discriminate.
    + rewrite (binaryData_Raise data e' E).
      split; intros H; injection H as ->; reflexivity.
  - intros L HL HL0.
    pose proof (find_bounds data CRC_START) as Hf.
    eexists. split; [apply (binaryData_eq data L HL) |].
    rewrite len_slice_forwards by lia.
    pose proof (len_nonneg data). lia.
Qed.

(** X6. Building the message object needs four bytes of payload for the time
    stamp: with fewer [TMmsg.__init__] raises [struct.error]; otherwise the
    object holds the file, the payload and the big-endian value of the first
    four bytes of the payload, which lies between 0 and [2^32 - 1]. *)
Theorem TMmsg_init_outcome (data payload : list byte) :
  binaryData data = Ok payload ->
  (len payload < 4 -> TMmsg_init data = Raise StructError)
  /\ (4 <= len payload ->
      TMmsg_init data =
      Ok {| data := data; bindata := payload;
            unix_end_time := u32_at payload 0 |}
      /\ 0 <= u32_at payload 0 < 2 ^ 32).
Proof.
  intros Hb. unfold TMmsg_init, timeStamp, unpack_L. rewrite Hb. cbn [bind].
  split; intros Hlen.
  - rewrite unpack_bytes_short by lia. reflexivity.
  - fold (unpack_L payload 0). rewrite unpack_L_at by lia. cbn [bind].
    split; [reflexivity |].
    unfold u32_at, byte_at.
    pose proof (byte_val_range (nth 0 payload x00)).
    pose proof (byte_val_range (nth (0 + 1) payload x00)).
    pose proof (byte_val_range (nth (0 + 2) payload x00)).
    pose proof (byte_val_range (nth (0 + 3) payload x00)).
    lia.
Qed.

Lemma TMmsg_init_inv (data : list byte) (m : TMmsg) :
  TMmsg_init data = Ok m ->
  exists (tm_xml tm length_txt : xml),
    parse_TM_xml data = Ok tm_xml
    /\ subscript tm_xml "TM" = Ok tm
    /\ subscript tm "Length" = Ok length_txt.
Proof.
  unfold TMmsg_init, binaryData. intros H.
  apply bind_Ok in H as (payload & H & _).
  apply bind_Ok in H as (tm_xml & H1 & H).
  apply bind_Ok in H as (tm & H2 & H).
  apply bind_Ok in H as (txt & H3 & _).
  exists tm_xml, tm, txt. repeat split; assumption.
Qed.

(** X7. [determine_msg_type] builds the message object first, so it fails
    whenever [TMmsg.__init__] fails, with the same exception.  Once the
    object is built nothing else can fail: the TM block is a dict [d], and
    the answer is ['rs41'] exactly when [d] maps [StateMess2] to the text
    [RS41], and ['lpc'] otherwise. *)
Theorem determine_msg_type_outcome (data : list byte) :
  (forall e : exn,
      TMmsg_init data = Raise e -> determine_msg_type data = Raise e)
  /\ (forall m : TMmsg,
         TMmsg_init data = Ok m ->
         exists (tm_xml : xml) (d : list (string * xml)) (ty : string),
           parse_TM_xml data = Ok tm_xml
           /\ subscript tm_xml "TM" = Ok (XDict d)
           /\ determine_msg_type data = Ok ty
           /\ (ty = "rs41"%string \/ ty = "lpc"%string)
           /\ (ty = "rs41"%string
               <-> assoc "StateMess2" d = Some (XStr "RS41"))).
Proof.
  split.
  - intros e H. unfold determine_msg_type. rewrite H. reflexivity.
  - intros m H.
    destruct (TMmsg_init_inv data m H) as (tm_xml & tm & txt & H1 & H2 & H3).
    destruct tm as [s | | d]; try discriminate H3.
    exists tm_xml, d.
    unfold determine_msg_type. rewrite H, H1. cbn [bind]. rewrite H2.
    cbn [bind contains subscript].
    destruct (assoc "StateMess2" d) as [v |] eqn:Ev; cbn [bind].
    + destruct (equals_str v "RS41") eqn:Eq.
      * exists "rs41"%string.
        repeat split; try reflexivity; [left; reflexivity |].
        destruct v as [s | | d']; try discriminate Eq.
        apply String.eqb_eq in Eq. subst s. reflexivity.
      * exists "lpc"%string.
        repeat split; try reflexivity; [right; reflexivity | discriminate |].
        intros Hv. injection Hv as ->. simpl in Eq. discriminate Eq.
    + exists "lpc"%string.
      repeat split; try reflexivity;
        [right; reflexivity | discriminate | discriminate].
Qed.

End FramerOutcomes.

(** On [tagged_container] and on [reversed_container]. *)
Lemma delimitedText_on_containers :
  delimitedText (RT := Flat.runtime) tagged_container
                (bytes_of "<TM>") (bytes_of "</TM>")
  = Ok "<TM><Length>4</Length></TM>"%string
  /\ delimitedText (RT := Flat.runtime) reversed_container
                   (bytes_of "<TM>") (bytes_of "</TM>")
     = Ok ""%string.
Proof.
  split.
  - rewrite (proj1 (delimitedText_between (RT := Flat.runtime)
                      tagged_container (bytes_of "<TM>") (bytes_of "</TM>")
                      0 22 eq_refl eq_refl ltac:(lia) ltac:(lia)))
      by (vm_compute; discriminate).
    vm_compute. reflexivity.
  - rewrite (proj2 (delimitedText_between (RT := Flat.runtime)
                      reversed_container (bytes_of "<TM>") (bytes_of "</TM>")
                      25 0 eq_refl eq_refl ltac:(lia) ltac:(lia)))
      by (vm_compute; discriminate).
    vm_compute. reflexivity.
Defined.

(** On [truncated_container]: 10 bytes declared, 5 returned. *)
Lemma binaryData_outcome_on_truncated_container :
  exists payload : list byte,
    binaryData (RT := Flat.runtime) truncated_container = Ok payload
    /\ len payload = 5.
Proof.
  assert (declared_length (RT := Flat.runtime) truncated_container = Ok 10)
    as HL by (vm_compute; reflexivity).
  destruct (proj2 (binaryData_outcome (RT := Flat.runtime) truncated_container)
              10 HL ltac:(lia))
    as (payload & Hb & Hlen & _).
  exists payload. split; [exact Hb |].
  rewrite Hlen. vm_compute. reflexivity.
Defined.

(** On [tagged_container], whose payload is [ABCD]. *)
Lemma TMmsg_init_on_tagged_container :
  TMmsg_init (RT := Flat.runtime) tagged_container
  = Ok {| data := tagged_container;
          bindata := bytes_of "ABCD";
          unix_end_time := 1094861636 |}.
Proof.
  assert (binaryData (RT := Flat.runtime) tagged_container
          = Ok (bytes_of "ABCD")) as Hb by (vm_compute; reflexivity).
  destruct (proj2 (TMmsg_init_outcome (RT := Flat.runtime)
                     tagged_container (bytes_of "ABCD") Hb))
    as (Hinit & _); [vm_compute; discriminate |].
  rewrite Hinit. reflexivity.
Defined.

(** On [rs41_container]. *)
Lemma determine_msg_type_on_rs41_container :
  exists m : TMmsg,
    TMmsg_init (RT := Flat.runtime) rs41_container = Ok m
    /\ determine_msg_type (RT := Flat.runtime) rs41_container
       = Ok "rs41"%string.
Proof.
  assert (exists m, TMmsg_init (RT := Flat.runtime) rs41_container = Ok m)
    as (m & Hm) by (vm_compute; eexists; reflexivity).
  exists m. split; [exact Hm |].
  destruct (proj2 (determine_msg_type_outcome (RT := Flat.runtime)
                     rs41_container) m Hm)
    as (tm_xml & d & ty & Hp & Hd & Hty & _ & Hiff).
  rewrite Hty. f_equal. apply Hiff.
  assert (parse_TM_xml (RT := Flat.runtime) rs41_container
          = Ok (XDict [("TM"%string,
                        XDict [("StateMess2"%string, XStr "RS41");
                               ("Length"%string, XStr "4")])])) as Hp'
      by (vm_compute; reflexivity).
  rewrite Hp' in Hp. injection Hp as <-.
  cbn in Hd. injection Hd as <-. reflexivity.
Defined.

(** ** More on the RS41 records *)

Lemma decodeRS41sample_eq_long (record : list byte) :
  (15 <= List.length record)%nat ->
  let t := (IZR (u16_at record 5) / 100.0 - 100.0)%R in
  let h := (IZR (u16_at record 7) / 100.0)%R in
  let s := (IZR (u16_at record 9) / 100.0 - 100.0)%R in
  let p := (IZR (u16_at record 11) / 50.0)%R in
  decodeRS41sample record =
  Ok {| valid := byte_at record 0;
        secs_from_start := s32_at record 1;
        air_temp_degC := t;
        humdity_percent := h;
        humidity_sensor_temp_degC := s;
        pres_mb := p;
        module_error := u16_at record 13;
        rs41_rh_percent := fst (RS41_RH_wvmr t p h s);
        wv_mixing_ratio_ppmv := snd (RS41_RH_wvmr t p h s);
        unix_time := None |}.
Proof.
  intros Hlen t h s p.
  assert (15 <= len record) as Hl by (unfold len; lia).
  unfold decodeRS41sample.
  rewrite unpack_B_at, unpack_l_at by lia.
  rewrite !unpack_H_at by lia.
  cbn [bind].
  change (Z.to_nat 0) with 0%nat. change (Z.to_nat 1) with 1%nat.
  change (Z.to_nat 5) with 5%nat. change (Z.to_nat 7) with 7%nat.
  change (Z.to_nat 9) with 9%nat. change (Z.to_nat 11) with 11%nat.
  change (Z.to_nat 13) with 13%nat.
  fold t h s p.
  destruct (RS41_RH_wvmr t p h s) as [rh wv].
  reflexivity.
Qed.

Lemma byte_at_app (l extra : list byte) (i : nat) :
  (i < List.length l)%nat -> byte_at (l ++ extra) i = byte_at l i.
Proof.
  intros Hi. unfold byte_at. rewrite app_nth1 by exact Hi. reflexivity.
Qed.

Lemma u16_at_app (l extra : list byte) (i : nat) :
  (i + 1 < List.length l)%nat -> u16_at (l ++ extra) i = u16_at l i.
Proof.
  intros Hi. unfold u16_at. rewrite !byte_at_app by lia. reflexivity.
Qed.

Lemma u32_at_app (l extra : list byte) (i : nat) :
  (i + 3 < List.length l)%nat -> u32_at (l ++ extra) i = u32_at l i.
Proof.
  intros Hi. unfold u32_at. rewrite !byte_at_app by lia. reflexivity.
Qed.

(** X8. [decodeRS41sample] returns a record exactly when it is given at
    least 15 bytes, and raises [struct.error] otherwise.  It reads the first
    15 bytes only: what follows them does not change the result. *)
Theorem decodeRS41sample_reads_15_bytes (record : list byte) :
  ((exists r : RS41Sample, decodeRS41sample record = Ok r)
   <-> (15 <= List.length record)%nat)
  /\ ((List.length record < 15)%nat ->
      decodeRS41sample record = Raise StructError)
  /\ (forall extra : list byte,
         List.length record = 15%nat ->
         decodeRS41sample (record ++ extra) = decodeRS41sample record).
Proof.
  split; [| split].
  - split.
    + intros (r & Hr).
      destruct (Nat.lt_ge_cases (List.length record) 15) as [Hs | Hl];
        [| exact Hl].
      rewrite (decodeRS41sample_short record Hs) in Hr. discriminate Hr.
    + intros Hl. eexists. apply (decodeRS41sample_eq_long record Hl).
  - apply decodeRS41sample_short.
  - intros extra Hlen.
    rewrite (decodeRS41sample_eq_long (record ++ extra))
      by (rewrite length_app; lia).
    rewrite (decodeRS41sample_eq_long record) by lia.
    unfold s32_at.
    rewrite byte_at_app, u32_at_app, !u16_at_app by lia.
    reflexivity.
Qed.

(** On the sample record followed by two more bytes. *)
Lemma decodeRS41sample_on_17_bytes :
  decodeRS41sample (sample_record ++ [xff; xff])
  = decodeRS41sample sample_record.
Proof.
  exact (proj2 (proj2 (decodeRS41sample_reads_15_bytes sample_record))
               [xff; xff] eq_refl).
Defined.

Lemma u16_at_range (l : list byte) (i : nat) : 0 <= u16_at l i <= 65535.
Proof.
  unfold u16_at, byte_at.
  pose proof (byte_val_range (nth i l x00)).
  pose proof (byte_val_range (nth (i + 1) l x00)).
  lia.
Qed.

Lemma u32_at_range (l : list byte) (i : nat) : 0 <= u32_at l i < 2 ^ 32.
Proof.
  unfold u32_at, byte_at.
  pose proof (byte_val_range (nth i l x00)).
  pose proof (byte_val_range (nth (i + 1) l x00)).
  pose proof (byte_val_range (nth (i + 2) l x00)).
  pose proof (byte_val_range (nth (i + 3) l x00)).
  lia.
Qed.

Lemma scaled_u16_range (l : list byte) (i : nat) :
  (0 <= IZR (u16_at l i) <= 65535)%R.
Proof.
  destruct (u16_at_range l i) as (H0 & H1).
  apply IZR_le in H0. apply IZR_le in H1. lra.
Qed.

(** X9. The fields of a decoded record lie in the ranges the layout allows:
    the flag in 0..255, the seconds in the signed 32-bit range, the error
    code in 0..65535, the temperatures between -100 and 555.35 degrees, the
    humidity between 0 and 655.35 percent, the pressure between 0 and
    1310.7 hPa.  The ambient humidity always has a value, which is not
    negative, and no time is set yet. *)
Theorem decodeRS41sample_ranges (record : list byte) (r : RS41Sample) :
  decodeRS41sample record = Ok r ->
  0 <= valid r <= 255
  /\ - 2 ^ 31 <= secs_from_start r < 2 ^ 31
  /\ 0 <= module_error r <= 65535
  /\ (-100 <= air_temp_degC r <= 555.35)%R
  /\ (0 <= humdity_percent r <= 655.35)%R
  /\ (-100 <= humidity_sensor_temp_degC r <= 555.35)%R
  /\ (0 <= pres_mb r <= 1310.7)%R
  /\ (exists rh : R, rs41_rh_percent r = Some rh /\ (0 <= rh)%R)
  /\ unix_time r = None.
Proof.
  intros Hr.
  assert (15 <= List.length record)%nat as Hl.
  { destruct (Nat.lt_ge_cases (List.length record) 15) as [Hs | Hl];
      [| exact Hl].
    rewrite (decodeRS41sample_short record Hs) in Hr. discriminate Hr. }
  rewrite (decodeRS41sample_eq_long record Hl) in Hr. injection Hr as <-.
  cbn [valid secs_from_start module_error air_temp_degC humdity_percent
       humidity_sensor_temp_degC pres_mb rs41_rh_percent unix_time].
  pose proof (byte_val_range (nth 0 record x00)) as Hv.
  pose proof (u32_at_range record 1) as Hu.
  pose proof (u16_at_range record 13) as He.
  pose proof (scaled_u16_range record 5) as Ht.
  pose proof (scaled_u16_range record 7) as Hh.
  pose proof (scaled_u16_range record 9) as Hs.
  pose proof (scaled_u16_range record 11) as Hp.
  split; [unfold byte_at; lia |].
  split; [unfold s32_at; destruct (u32_at record 1 <? 2 ^ 31) eqn:E;
          [apply Z.ltb_lt in E | apply Z.ltb_ge in E]; lia |].
  split; [exact He |].
  split; [lra |]. split; [lra |]. split; [lra |]. split; [lra |].
  split; [| reflexivity].
  destruct (decoded_temperature_defined record 9) as (es_s & Hes_s & Hs0).
  destruct (decoded_temperature_defined record 5) as (es_a & Hes_a & Ha0).
  rewrite (RS41_RH_wvmr_eq _ _ _ _ es_s es_a Hes_s Hes_a). cbn [fst].
  rewrite fdiv_nonzero by lra. cbn [option_map].
  eexists. split; [reflexivity |].
  assert (0 < / es_a)%R by (apply Rinv_0_lt_compat; exact Ha0).
  unfold Rdiv. 
  apply Rmult_le_pos; [| lra].
  apply Rmult_le_pos; [| lra].
  apply Rmult_le_pos; [| lra].
  apply Rmult_le_pos; [lra |].
  apply Rmult_le_pos; [lra | lra].
Qed.

(** On the sample record. *)
Lemma decodeRS41sample_ranges_on_sample_record :
  exists r : RS41Sample,
    decodeRS41sample sample_record = Ok r
    /\ 0 <= valid r <= 255
    /\ (-100 <= air_temp_degC r <= 555.35)%R.
Proof.
  pose proof (decodeRS41sample_eq sample_record eq_refl) as Hr.
  cbv zeta in Hr.
  match type of Hr with _ = Ok ?x => set (r := x) in Hr end.
  exists r. split; [exact Hr |].
  destruct (decodeRS41sample_ranges sample_record r Hr)
    as (Hv & _ & _ & Ht & _).
  split; assumption.
Defined.

Lemma byte_val_inj (a b : byte) : byte_val a = byte_val b -> a = b.
Proof.
  unfold byte_val. intros H. apply N2Z.inj in H.
  pose proof (Byte.of_to_N a) as Ha.
  pose proof (Byte.of_to_N b) as Hb.
  rewrite H, Hb in Ha. injection Ha as ->. reflexivity.
Qed.

Lemma scaled_eq (x y : Z) (k c : R) :
  (0 < k)%R -> (IZR x / k - c = IZR y / k - c)%R -> x = y.
Proof.
  intros Hk H. apply eq_IZR.
  assert (IZR x / k = IZR y / k)%R as H' by lra.
  unfold Rdiv in H'. apply Rmult_eq_reg_r in H'; [exact H' |].
  apply Rinv_neq_0_compat. lra.
Qed.

(** X10. Decoding loses nothing: two 15-byte records that decode to the same
    record are the same bytes. *)
Theorem decodeRS41sample_injective (a b : list byte) :
  List.length a = 15%nat -> List.length b = 15%nat ->
  decodeRS41sample a = decodeRS41sample b ->
  a = b.
Proof.
  intros Ha Hb H.
  rewrite (decodeRS41sample_eq a Ha), (decodeRS41sample_eq b Hb) in H.
  cbv zeta in H.
  injection H as Hv Hsec Ht Hh Hs Hp He _ _.
  apply (scaled_eq _ _ 100.0 100.0) in Ht; [| lra].
  apply (scaled_eq _ _ 100.0 100.0) in Hs; [| lra].
  assert (u16_at a 11 = u16_at b 11) as Hp'
      by (apply (scaled_eq _ _ 50.0 0); lra).
  assert (u16_at a 7 = u16_at b 7) as Hh'
      by (apply (scaled_eq _ _ 100.0 0); lra).
  clear Hp Hh.
  assert (u32_at a 1 = u32_at b 1) as Hu.
  { pose proof (u32_at_range a 1). pose proof (u32_at_range b 1).
    unfold s32_at in Hsec.
    destruct (u32_at a 1 <? 2 ^ 31) eqn:E1;
      destruct (u32_at b 1 <? 2 ^ 31) eqn:E2;
      try apply Z.ltb_lt in E1; try apply Z.ltb_ge in E1;
      try apply Z.ltb_lt in E2; try apply Z.ltb_ge in E2; lia. }
  clear Hsec.
  unfold u32_at, u16_at in *. cbn [Nat.add] in *.
  assert (forall i, 0 <= byte_at a i < 256) as Ra
      by (intros i; apply byte_val_range).
  assert (forall i, 0 <= byte_at b i < 256) as Rb
      by (intros i; apply byte_val_range).
  pose proof (Ra 1%nat); pose proof (Ra 2%nat); pose proof (Ra 3%nat);
    pose proof (Ra 4%nat); pose proof (Ra 5%nat); pose proof (Ra 6%nat);
    pose proof (Ra 7%nat); pose proof (Ra 8%nat); pose proof (Ra 9%nat);
    pose proof (Ra 10%nat); pose proof (Ra 11%nat); pose proof (Ra 12%nat);
    pose proof (Ra 13%nat); pose proof (Ra 14%nat).
  pose proof (Rb 1%nat); pose proof (Rb 2%nat); pose proof (Rb 3%nat);
    pose proof (Rb 4%nat); pose proof (Rb 5%nat); pose proof (Rb 6%nat);
    pose proof (Rb 7%nat); pose proof (Rb 8%nat); pose proof (Rb 9%nat);
    pose proof (Rb 10%nat); pose proof (Rb 11%nat); pose proof (Rb 12%nat);
    pose proof (Rb 13%nat); pose proof (Rb 14%nat).
  assert (forall i, (i < 15)%nat -> byte_at a i = byte_at b i) as Hall.
  { intros i Hi.
    do 15 (destruct i as [| i]; [lia |]). lia. }
  apply (nth_ext a b x00 x00); [lia |].
  intros n Hn. apply byte_val_inj. apply Hall. lia.
Qed.

(** On two records that differ in the humidity word. *)
Lemma decodeRS41sample_tells_records_apart :
  decodeRS41sample zero_record <> decodeRS41sample vacuum_record.
Proof.
  intros H.
  apply (decodeRS41sample_injective zero_record vacuum_record
           eq_refl eq_refl) in H.
  discriminate H.
Defined.

(** ** More on the list of RS41 records *)

Lemma allRS41samples_count (self : TMmsg) (c : nat) :
  (0 < c)%nat ->
  range 6 (len (bindata self) - 6) record_len
  = map (fun k => 6 + Z.of_nat k * 15) (seq 0 c) ->
  6 + Z.of_nat (c - 1) * 15 + 15 <= len (bindata self) ->
  exists recs : list RS41Sample,
    allRS41samples self = Ok recs /\ List.length recs = c.
Proof.
  intros Hc Hrange Hfit.
  destruct (mapM_total
              (fun i => decodeRS41sample
                          (slice (bindata self) i (i + record_len)))
              (range 6 (len (bindata self) - 6) record_len))
    as (records & Hrecords).
  { rewrite Hrange. intros i Hi.
    apply in_map_iff in Hi as (k & <- & Hk). apply in_seq in Hk.
    apply whole_slice_decodes. lia. }
  pose proof Hrecords as HF. apply mapM_Forall2 in HF.
  assert (List.length records = c) as Hcount.
  { apply Forall2_length in HF. rewrite <- HF, Hrange.
    rewrite length_map, length_seq. reflexivity. }
  destruct records as [| first_r t]; [simpl in Hcount; lia |].
  assert (first_r :: t <> []) as Hne by discriminate.
  destruct (exists_last Hne) as (t' & last_r & Hlast).
  pose proof (getitem_first first_r t) as Hg0.
  pose proof (getitem_last t' last_r) as Hg1. rewrite <- Hlast in Hg1.
  eexists.
  split; [apply (allRS41samples_of_records self _ _ _ Hrecords Hg0 Hg1) |].
  rewrite length_map. exact Hcount.
Qed.

Lemma allRS41samples_short_remainder (self : TMmsg) (n : nat) (rem : Z) :
  1 <= rem <= 8 ->
  len (bindata self) = 12 + 15 * Z.of_nat n + rem ->
  allRS41samples self = Raise StructError.
Proof.
  intros Hrem HL.
  apply allRS41samples_Raise. unfold decoded_slices.
  rewrite (range_of_records _ n rem HL) by lia.
  assert ((rem =? 0) = false) as E by (apply Z.eqb_neq; lia).
  rewrite E, seq_app, map_app. cbn [seq map Nat.add].
  destruct (mapM_total
              (fun i => decodeRS41sample
                          (slice (bindata self) i (i + record_len)))
              (map (fun k => 6 + Z.of_nat k * 15) (seq 0 n)))
    as (bs & Hbs).
  { intros i Hi.
    apply in_map_iff in Hi as (k & <- & Hk). apply in_seq in Hk.
    apply whole_slice_decodes. lia. }
  apply (mapM_Raise _ _ [] bs _ _ Hbs).
  apply decodeRS41sample_short.
  assert (len (slice (bindata self) (6 + Z.of_nat n * 15)
                     (6 + Z.of_nat n * 15 + record_len))
          = len (bindata self) - (6 + Z.of_nat n * 15)) as Hs
      by (apply len_slice_truncated; unfold record_len; lia).
  unfold len in *. lia.
Qed.

(** X11. What [allRS41samples] does is decided by the length [L] of the
    payload.  Up to 12 bytes it raises [IndexError].  Beyond, with
    [rem = (L - 12) mod 15] bytes after the last whole record: for [rem]
    from 1 to 8 it raises [struct.error]; for [rem = 0] and for [rem] from 9
    to 14 it returns [(L + 2) / 15] records, never an empty list. *)
Theorem allRS41samples_by_payload_length (self : TMmsg) :
  let L := len (bindata self) in
  (L <= 12 -> allRS41samples self = Raise IndexError)
  /\ (12 < L -> 1 <= (L - 12) mod 15 <= 8 ->
      allRS41samples self = Raise StructError)
  /\ (12 < L -> (L - 12) mod 15 = 0 \/ 9 <= (L - 12) mod 15 ->
      exists recs : list RS41Sample,
        allRS41samples self = Ok recs
        /\ len recs = (L + 2) / 15
        /\ recs <> []).
Proof.
  intros L.
  pose proof (Z.div_mod (L - 12) 15 ltac:(lia)) as Hdm.
  pose proof (Z.mod_pos_bound (L - 12) 15 ltac:(lia)) as Hmod.
  set (rem := (L - 12) mod 15) in *.
  set (q := (L - 12) / 15) in *.
  split; [apply allRS41samples_no_record |].
  split.
  - intros HL Hrem.
    assert (0 <= q) as Hq by (unfold q; apply Z.div_pos; lia).
    apply (allRS41samples_short_remainder self (Z.to_nat q) rem Hrem).
    fold L. lia.
  - intros HL Hrem.
    assert (0 <= q) as Hq by (unfold q; apply Z.div_pos; lia).
    assert (L = 12 + 15 * Z.of_nat (Z.to_nat q) + rem) as HLq by lia.
    pose proof (range_of_records L (Z.to_nat q) rem HLq ltac:(lia)) as Hrange.
    fold L.
    destruct (rem =? 0) eqn:E.
    + apply Z.eqb_eq in E.
      destruct (allRS41samples_count self (Z.to_nat q)) as (recs & Hr & Hc);
        [lia | exact Hrange | fold L; lia |].
      exists recs. split; [exact Hr |].
      split; [| intros ->; simpl in Hc; lia].
      unfold len at 1. rewrite Hc.
      replace (L + 2) with (q * 15 + 14) by lia.
      rewrite Z.div_add_l by lia.
      replace (14 / 15) with 0 by reflexivity. lia.
    + apply Z.eqb_neq in E.
      destruct (allRS41samples_count self (Z.to_nat q + 1)) as (recs & Hr & Hc);
        [lia | exact Hrange | fold L; lia |].
      exists recs. split; [exact Hr |].
      split; [| intros ->; simpl in Hc; lia].
      unfold len at 1. rewrite Hc.
      replace (L + 2) with ((q + 1) * 15 + (rem - 1)) by lia.
      rewrite Z.div_add_l by lia.
      rewrite Z.div_small by lia. lia.
Qed.

(** On the payloads of 27, 28 and 36 bytes. *)
Lemma allRS41samples_on_27_28_36_bytes :
  (exists recs : list RS41Sample,
      allRS41samples (msg_of_payload zero_payload) = Ok recs
      /\ len recs = 1)
  /\ allRS41samples (msg_of_payload payload_28) = Raise StructError
  /\ (exists recs : list RS41Sample,
         allRS41samples (msg_of_payload overlap_payload) = Ok recs
         /\ len recs = 2).
Proof.
  split; [| split].
  - destruct (proj2 (proj2 (allRS41samples_by_payload_length
                              (msg_of_payload zero_payload))))
      as (recs & Hr & Hc & _);
      [vm_compute; reflexivity | left; reflexivity |].
    exists recs. split; [exact Hr | rewrite Hc; reflexivity].
  - apply (proj1 (proj2 (allRS41samples_by_payload_length
                           (msg_of_payload payload_28))));
      [vm_compute; reflexivity | vm_compute; split; discriminate].
  - destruct (proj2 (proj2 (allRS41samples_by_payload_length
                              (msg_of_payload overlap_payload))))
      as (recs & Hr & Hc & _);
      [vm_compute; reflexivity | right; vm_compute; discriminate |].
    exists recs. split; [exact Hr | rewrite Hc; reflexivity].
Defined.

(** X12. The times set by [allRS41samples] differ as the seconds from start
    do: every record of the result has a time, and for two of them
    [t2 - t1 = secs2 - secs1].  Times are therefore in the order of the
    seconds. *)
Theorem allRS41samples_keeps_time_differences
        (self : TMmsg) (recs : list RS41Sample) :
  allRS41samples self = Ok recs ->
  forall r1 r2 : RS41Sample,
    In r1 recs -> In r2 recs ->
    exists t1 t2 : Z,
      unix_time r1 = Some t1
      /\ unix_time r2 = Some t2
      /\ t2 - t1 = secs_from_start r2 - secs_from_start r1
      /\ (secs_from_start r1 <= secs_from_start r2 -> t1 <= t2).
Proof.
  intros H r1 r2 H1 H2.
  apply allRS41samples_inv in H
    as (records & first_r & last_r & _ & _ & _ & ->).
  apply in_map_iff in H1 as (a & <- & _).
  apply in_map_iff in H2 as (b & <- & _).
  cbn [unix_time set_unix_time secs_from_start].
  eexists. eexists.
  split; [reflexivity |]. split; [reflexivity |]. split; lia.
Qed.

(** On the payload of 36 bytes. *)
Lemma allRS41samples_times_on_36_bytes :
  exists recs : list RS41Sample,
    allRS41samples (msg_of_payload overlap_payload) = Ok recs
    /\ forall r : RS41Sample,
         In r recs -> exists t : Z, unix_time r = Some t.
Proof.
  destruct second_record_reads_the_trailer as (_ & r1 & r2 & Hr & _).
  exists [r1; r2]. split; [exact Hr |].
  intros r Hin.
  destruct (allRS41samples_keeps_time_differences _ _ Hr r r Hin Hin)
    as (t & _ & Ht & _).
  exists t. exact Ht.
Defined.

(** ** More on the LPC frames *)

Lemma unpackBinary_short (self : TMmsg) :
  len (bindata self) < 192 -> unpackBinary self = Raise ValueError.
Proof.
  intros Hlen. pose proof (len_nonneg (bindata self)) as Hn.
  unfold unpackBinary. rewrite Z.quot_div_nonneg by lia.
  assert (len (bindata self) / 96 < 2) as Hq
      by (apply Z.div_lt_upper_bound; lia).
  unfold np_zeros.
  assert ((len (bindata self) / 96 - 2 <? 0) = true) as E
      by (apply Z.ltb_lt; lia).
  rewrite E. reflexivity.
Qed.

Lemma unpackBinary_Ok_inv (self : TMmsg) (frames : list LPCFrame) :
  unpackBinary self = Ok frames ->
  192 <= len (bindata self)
  /\ frames = map (frame_at self)
                  (seq 0 (Z.to_nat (len (bindata self) / 96 - 2))).
Proof.
  intros H.
  destruct (Z_lt_ge_dec (len (bindata self)) 192) as [Hs | Hl].
  - rewrite (unpackBinary_short self Hs) in H. discriminate H.
  - split; [lia |].
    rewrite (unpackBinary_eq self) in H by lia.
    injection H as <-. reflexivity.
Qed.

(** X13. The arrays [unpackBinary] fills have 16 rows: every frame holds 16
    high-gain counts, 16 low-gain counts and 16 housekeeping values, and
    every count lies between 0 and 65535. *)
Theorem unpackBinary_frame_shape (self : TMmsg) (frames : list LPCFrame) :
  unpackBinary self = Ok frames ->
  forall fr : LPCFrame,
    In fr frames ->
    List.length (HGBins fr) = 16%nat
    /\ List.length (LGBins fr) = 16%nat
    /\ List.length (HKData fr) = 16%nat
    /\ (forall v : Z, In v (HGBins fr) -> 0 <= v <= 65535)
    /\ (forall v : Z, In v (LGBins fr) -> 0 <= v <= 65535).
Proof.
  intros H fr Hin.
  apply unpackBinary_Ok_inv in H as (_ & ->).
  apply in_map_iff in Hin as (y & <- & _).
  unfold frame_at. cbn [HGBins LGBins HKData].
  split; [reflexivity |]. split; [reflexivity |]. split; [reflexivity |].
  split; intros v Hv; apply in_map_iff in Hv as (x & <- & _);
    apply u16_at_range.
Qed.

(** On the payload of 288 bytes. *)
Lemma unpackBinary_frame_shape_on_288_bytes :
  exists frames : list LPCFrame,
    unpackBinary (msg_of_payload lpc_payload_288) = Ok frames
    /\ forall fr : LPCFrame,
         In fr frames -> List.length (HKData fr) = 16%nat.
Proof.
  eexists. split.
  - apply (unpackBinary_eq (msg_of_payload lpc_payload_288)).
    vm_compute. discriminate.
  - intros fr Hin.
    refine (proj1 (proj2 (proj2 (unpackBinary_frame_shape
                     (msg_of_payload lpc_payload_288) _ _ fr Hin)))).
    apply (unpackBinary_eq (msg_of_payload lpc_payload_288)).
    vm_compute. discriminate.
Defined.

Lemma HK_convert_ranges (t : Z) (HKRaw : list Z) :
  (forall k : nat, 0 <= nth k HKRaw 0 <= 65535) ->
  let HK k := nth k (HK_convert t HKRaw) 0%R in
  (IZR t <= HK 0%nat <= IZR t + 65535)%R
  /\ (forall k : nat,
         (k = 1 \/ k = 2 \/ k = 3 \/ k = 9 \/ k = 10)%nat ->
         (0 <= HK k <= 65535)%R)
  /\ (forall k : nat, (4 <= k <= 8)%nat -> (0 <= HK k <= 65.535)%R)
  /\ (forall k : nat, (11 <= k <= 15)%nat -> (-273.15 <= HK k <= 382.21)%R).
Proof.
  intros Hraw HK.
  assert (forall k, (0 <= IZR (nth k HKRaw 0%Z) <= 65535)%R) as Hr.
  { intros k. destruct (Hraw k) as (H0 & H1).
    apply IZR_le in H0. apply IZR_le in H1. lra. }
  unfold HK, HK_convert. cbv zeta.
  split; [| split; [| split]].
  - cbn [nth]. rewrite plus_IZR. pose proof (Hr 0%nat). lra.
  - intros k [-> | [-> | [-> | [-> | ->]]]]; cbn [nth]; apply Hr.
  - intros k Hk.
    do 4 (destruct k as [| k]; [lia |]).
    do 5 (destruct k as [| k];
          [cbn [nth];
           match goal with |- (_ <= IZR (nth ?i _ _) / _ <= _)%R =>
             pose proof (Hr i) end; lra |]).
    lia.
  - intros k Hk.
    do 11 (destruct k as [| k]; [lia |]).
    do 5 (destruct k as [| k];
          [cbn [nth];
           match goal with |- (_ <= IZR (nth ?i _ _) / _ - _ <= _)%R =>
             pose proof (Hr i) end; lra |]).
    lia.
Qed.

(** X14. The housekeeping values of every frame lie in the ranges of their
    conversions: the time is the time stamp plus at most 65535 seconds, the
    currents and the two PWM values are raw words, the five values divided by
    1000 lie between 0 and 65.535, and the five temperatures between
    -273.15 and 382.21 degrees. *)
Theorem unpackBinary_housekeeping_ranges
        (self : TMmsg) (frames : list LPCFrame) :
  unpackBinary self = Ok frames ->
  forall fr : LPCFrame,
    In fr frames ->
    let HK k := nth k (HKData fr) 0%R in
    (IZR (unix_end_time self) <= HK 0%nat
     <= IZR (unix_end_time self) + 65535)%R
    /\ (forall k : nat,
           (k = 1 \/ k = 2 \/ k = 3 \/ k = 9 \/ k = 10)%nat ->
           (0 <= HK k <= 65535)%R)
    /\ (forall k : nat, (4 <= k <= 8)%nat -> (0 <= HK k <= 65.535)%R)
    /\ (forall k : nat, (11 <= k <= 15)%nat -> (-273.15 <= HK k <= 382.21)%R).
Proof.
  intros H fr Hin.
  apply unpackBinary_Ok_inv in H as (_ & ->).
  apply in_map_iff in Hin as (y & <- & _).
  unfold frame_at. cbn [HKData].
  apply HK_convert_ranges.
  intros k.
  destruct (Nat.lt_ge_cases k 16) as [Hk | Hk].
  - match goal with
    | |- 0 <= nth k ?raw 0 <= 65535 =>
        assert (In (nth k raw 0) raw) as Hin
          by (apply nth_In; rewrite length_map, length_seq; exact Hk)
    end.
    apply in_map_iff in Hin as (x & <- & _). apply u16_at_range.
  - rewrite nth_overflow by (rewrite length_map, length_seq; exact Hk). lia.
Qed.

(** On the payload of 288 bytes. *)
Lemma unpackBinary_housekeeping_on_288_bytes :
  exists frames : list LPCFrame,
    unpackBinary (msg_of_payload lpc_payload_288) = Ok frames
    /\ forall fr : LPCFrame,
         In fr frames -> (-273.15 <= nth 11 (HKData fr) 0 <= 382.21)%R.
Proof.
  assert (unpackBinary (msg_of_payload lpc_payload_288)
          = Ok (map (frame_at (msg_of_payload lpc_payload_288))
                    (seq 0 (Z.to_nat
                              (len (bindata (msg_of_payload lpc_payload_288))
                               / 96 - 2))))) as Hu
      by (apply unpackBinary_eq; vm_compute; discriminate).
  eexists. split; [exact Hu |].
  intros fr Hin.
  destruct (unpackBinary_housekeeping_ranges _ _ Hu fr Hin)
    as (_ & _ & _ & Ht).
  apply (Ht 11%nat). lia.
Defined.

(** X15. [unpackBinary] reads the frames and nothing else: the first 132
    bytes of the payload and the bytes from offset [96 * (len / 96) - 60] on
    play no part.  Two payloads of the same length that agree in between,
    with the same time stamp, give the same result. *)
Theorem unpackBinary_reads_frames_only (self1 self2 : TMmsg) :
  len (bindata self1) = len (bindata self2) ->
  unix_end_time self1 = unix_end_time self2 ->
  (forall i : nat,
      132 <= Z.of_nat i < 96 * (len (bindata self1) / 96) - 60 ->
      nth i (bindata self1) x00 = nth i (bindata self2) x00) ->
  unpackBinary self1 = unpackBinary self2.
Proof.
  intros Hlen Htime Hagree.
  destruct (Z_lt_ge_dec (len (bindata self1)) 192) as [Hs | Hl].
  - rewrite (unpackBinary_short self1 Hs).
    rewrite (unpackBinary_short self2) by lia. reflexivity.
  - rewrite (unpackBinary_eq self1), (unpackBinary_eq self2) by lia.
    rewrite <- Hlen. f_equal.
    apply map_ext_in. intros y Hy. apply in_seq in Hy.
    assert (2 <= len (bindata self1) / 96) as Hq
        by (apply Z.div_le_lower_bound; lia).
    assert (forall x o : nat,
               (x < 16)%nat -> (o <= 64)%nat ->
               u16_at (bindata self1) (36 + (y + 1) * 96 + x * 2 + o)
               = u16_at (bindata self2) (36 + (y + 1) * 96 + x * 2 + o))
      as Hword.
    { intros x o Hx Ho. unfold u16_at, byte_at.
      rewrite !Hagree by lia. reflexivity. }
    unfold frame_at. rewrite Htime.
    f_equal; [| | f_equal];
      apply map_ext_in; intros x Hx; apply in_seq in Hx; apply Hword; lia.
Qed.

(** On two payloads of 288 bytes that differ in their first byte only. *)
Lemma unpackBinary_ignores_first_byte :
  unpackBinary {| data := []; bindata := x01 :: repeat x00 287;
                  unix_end_time := 0 |}
  = unpackBinary {| data := []; bindata := lpc_payload_288;
                    unix_end_time := 0 |}.
Proof.
  apply unpackBinary_reads_frames_only; [reflexivity | reflexivity |].
  intros i Hi. cbn [bindata] in *.
  destruct i as [| i]; [lia |]. reflexivity.
Defined.

(** ** The binary section of readLPCXML_2021 *)

Lemma startswith_of_firstn (p l : list byte) :
  firstn (List.length p) l = p -> (List.length p <= List.length l)%nat ->
  startswith p l = true.
Proof.
  revert l. induction p as [| a p IH]; intros l Hf Hl; [reflexivity |].
  destruct l as [| b l]; [simpl in Hl; lia |].
  simpl in Hf. injection Hf as -> Hf.
  simpl. rewrite (Byte.byte_dec_lb eq_refl). simpl.
  apply IH; [exact Hf | simpl in Hl; lia].
Qed.

Lemma find_from_first_occurrence (i : Z) (l sub : list byte) :
  (find_from i l sub = -1
   /\ forall k : nat,
        (k <= List.length l)%nat -> startswith sub (skipn k l) = false)
  \/ exists k : nat,
       (k <= List.length l)%nat
       /\ find_from i l sub = i + Z.of_nat k
       /\ startswith sub (skipn k l) = true
       /\ forall j : nat, (j < k)%nat -> startswith sub (skipn j l) = false.
Proof.
  revert i. induction l as [| a t IH]; intros i; simpl.
  - destruct (startswith sub []) eqn:E.
    + right. exists 0%nat. repeat split; [lia | lia | exact E |].
      intros j Hj. lia.
    + left. split; [reflexivity |].
      intros k Hk. destruct k; [exact E | lia].
  - destruct (startswith sub (a :: t)) eqn:E.
    + right. exists 0%nat. repeat split; [lia | lia | exact E |].
      intros j Hj. lia.
    + destruct (IH (i + 1)) as [(Hn & Hall) | (k & Hk & Hf & Hs & Hmin)].
      * left. split; [exact Hn |].
        intros k Hk. destruct k as [| k]; [exact E |].
        apply Hall. lia.
      * right. exists (S k). repeat split; [lia | lia | exact Hs |].
        intros j Hj. destruct j as [| j]; [exact E |].
        apply Hmin. lia.
Qed.

Lemma firstn_skipn_firstn {A : Type} (k j n : nat) (l : list A) :
  (j + k <= n)%nat ->
  firstn k (skipn j (firstn n l)) = firstn k (skipn j l).
Proof.
  intros H.
  rewrite !firstn_skipn_comm, firstn_firstn.
  replace (Nat.min (j + k) n) with (j + k)%nat by lia.
  reflexivity.
Qed.

(** An occurrence inside a slice is an occurrence in the whole, before the
    end of the slice. *)
Lemma occurrence_in_window (sub l : list byte) (a n j : nat) :
  sub <> [] ->
  startswith sub (skipn j (firstn n (skipn a l))) = true ->
  startswith sub (skipn (j + a) l) = true
  /\ (j + a + List.length sub <= a + n)%nat
  /\ (j + a <= List.length l)%nat.
Proof.
  intros Hne H.
  apply startswith_firstn in H as (Hlen & Hfst).
  rewrite length_skipn, length_firstn, length_skipn in Hlen.
  assert (0 < List.length sub)%nat as Hpos
      by (destruct sub; [contradiction | simpl; lia]).
  rewrite firstn_skipn_firstn in Hfst by lia.
  rewrite skipn_skipn in Hfst.
  split; [| lia].
  apply startswith_of_firstn; [exact Hfst |].
  rewrite length_skipn. lia.
Qed.

(** X16. The binary section [parseLCPdatatoCSV] cuts out of a file never
    contains the bytes [END]: the section stops at the first [END] of the
    file, so a payload in which these three bytes occur is cut there. *)
Theorem LPC2021_data_has_no_END (bindata : list byte) :
  find (LPC2021_data bindata) (bytes_of "END") = -1.
Proof.
  unfold find at 1.
  destruct (find_from_first_occurrence 0 (LPC2021_data bindata)
              (bytes_of "END")) as [(H & _) | (j & _ & _ & Hocc & _)];
    [exact H | exfalso].
  unfold LPC2021_data, slice in Hocc.
  pose proof (find_bounds bindata (bytes_of "START")) as Hstart.
  pose proof (find_bounds bindata (bytes_of "END")) as Hend.
  pose proof (len_nonneg bindata) as Hn.
  apply occurrence_in_window in Hocc as (Hocc & Hfit & Hin);
    [| discriminate].
  change (List.length (bytes_of "END")) with 3%nat in Hfit.
  rewrite (clamp_nonneg _ (find bindata (bytes_of "START") + 5)) in Hfit, Hocc, Hin
    by lia.
  destruct (find_from_first_occurrence 0 bindata (bytes_of "END"))
    as [(_ & Hnone) | (k & Hk & Hf & _ & Hmin)].
  - rewrite Hnone in Hocc by exact Hin. discriminate Hocc.
  - fold (find bindata (bytes_of "END")) in Hf.
    rewrite Hmin in Hocc; [discriminate Hocc |].
    rewrite clamp_nonneg in Hfit by lia.
    lia.
Qed.

Lemma unpack_H_cases (buffer : list byte) (off : Z) :
  0 <= off ->
  unpack_H buffer off = Raise StructError
  \/ exists v : Z, unpack_H buffer off = Ok v.
Proof.
  intros Hoff.
  destruct (Z_lt_ge_dec (len buffer) (off + 2)) as [Hs | Hl].
  - left. unfold unpack_H. rewrite unpack_bytes_short by lia. reflexivity.
  - right. eexists. apply unpack_H_at; lia.
Qed.

Lemma unpack_words_cases (bindata : list byte) (indx x : Z) :
  0 <= indx -> 0 <= x ->
  unpack_words bindata indx x = Raise StructError
  \/ exists w, unpack_words bindata indx x = Ok w.
Proof.
  intros Hi Hx. unfold unpack_words.
  destruct (unpack_H_cases bindata (indx + x * 2)) as [-> | (v1 & ->)];
    [lia | left; reflexivity |].
  destruct (unpack_H_cases bindata (indx + x * 2 + 32)) as [-> | (v2 & ->)];
    [lia | left; reflexivity |].
  destruct (unpack_H_cases bindata (indx + x * 2 + 64)) as [-> | (v3 & ->)];
    [lia | left; reflexivity |].
  right. eexists. reflexivity.
Qed.

Lemma unpack_words_last_fails (bindata : list byte) (indx : Z) :
  0 <= indx -> len bindata < indx + 96 ->
  unpack_words bindata indx 15 = Raise StructError.
Proof.
  intros Hi Hlen. unfold unpack_words.
  destruct (unpack_H_cases bindata (indx + 15 * 2)) as [-> | (v1 & ->)];
    [lia | reflexivity |].
  destruct (unpack_H_cases bindata (indx + 15 * 2 + 32)) as [-> | (v2 & ->)];
    [lia | reflexivity |].
  cbn [bind]. unfold unpack_H.
  rewrite unpack_bytes_short by lia. reflexivity.
Qed.

Lemma mapM_Raise_somewhere {A B : Type} (f : A -> result B) (e : exn)
      (l : list A) :
  (forall a, In a l -> f a = Raise e \/ exists b, f a = Ok b) ->
  (exists a, In a l /\ f a = Raise e) ->
  mapM f l = Raise e.
Proof.
  induction l as [| x t IH]; intros Hall (a & Hin & Ha).
  - destruct Hin.
  - simpl. destruct (Hall x (or_introl eq_refl)) as [-> | (b & Hb)];
      [reflexivity |].
    rewrite Hb. cbn [bind].
    destruct Hin as [-> | Hin]; [rewrite Ha in Hb; discriminate Hb |].
    rewrite IH; [reflexivity | |].
    + intros a' Ha'. apply Hall. right. exact Ha'.
    + exists a. split; assumption.
Qed.

(** A frame that runs past the end of the payload cannot be read. *)
Lemma unpack_frame_fails (self : TMmsg) (y : Z) :
  0 <= y -> len (bindata self) < 36 + (y + 1) * 96 + 96 ->
  unpack_frame self y = Raise StructError.
Proof.
  intros Hy Hlen. unfold unpack_frame.
  rewrite (mapM_Raise_somewhere _ StructError); [reflexivity | |].
  - intros x Hx. rewrite range_from_0 in Hx.
    apply in_map_iff in Hx as (k & <- & _).
    apply unpack_words_cases; lia.
  - exists 15. split; [vm_compute; tauto |].
    apply unpack_words_last_fails; lia.
Qed.

Lemma LPC2021_frames_start (data : list byte) :
  4 <= len data ->
  LPC2021_frames data =
  mapM (unpack_frame (msg_of_payload data))
       (range 0 (Z.quot (len data - 96) 96) 1).
Proof.
  intros H. unfold LPC2021_frames.
  rewrite unpack_L_at by lia. reflexivity.
Qed.

Lemma frame_count_2021 (L : Z) :
  192 <= L -> Z.quot (L - 96) 96 = L / 96 - 1.
Proof.
  intros H. rewrite Z.quot_div_nonneg by lia.
  replace (L - 96) with (L + -1 * 96) by lia.
  rewrite Z.div_add by lia. lia.
Qed.

Lemma LPC2021_frames_whole (data : list byte) :
  192 <= len data -> 36 <= len data mod 96 ->
  LPC2021_frames data =
  Ok (map (frame_at (msg_of_payload data))
          (seq 0 (Z.to_nat (len data / 96 - 1)))).
Proof.
  intros HL Hrem.
  rewrite LPC2021_frames_start by lia.
  rewrite frame_count_2021 by lia.
  rewrite range_from_0.
  apply mapM_map_Ok.
  intros y Hy. apply in_seq in Hy.
  apply unpack_frame_at. cbn [bindata msg_of_payload].
  pose proof (Z.div_mod (len data) 96 ltac:(lia)). lia.
Qed.

(** X17. What the frame loop of [parseLCPdatatoCSV] does is decided by the
    length [L] of the binary section.  Below 4 bytes the start time cannot
    be read: [struct.error].  From 4 to 191 bytes no frame is read.  From
    192 bytes on it reads [L / 96 - 1] frames when [L mod 96] is at least
    36, frame [y] at offset [36 + (y + 1) * 96]; when [L mod 96] is smaller
    the last frame runs past the end and the loop raises [struct.error]. *)
Theorem LPC2021_frames_by_length (data : list byte) :
  let L := len data in
  (L < 4 -> LPC2021_frames data = Raise StructError)
  /\ (4 <= L < 192 -> LPC2021_frames data = Ok [])
  /\ (192 <= L -> 36 <= L mod 96 ->
      LPC2021_frames data =
      Ok (map (frame_at (msg_of_payload data))
              (seq 0 (Z.to_nat (L / 96 - 1)))))
  /\ (192 <= L -> L mod 96 < 36 ->
      LPC2021_frames data = Raise StructError).
Proof.
  intros L. pose proof (len_nonneg data) as Hn.
  split; [| split; [| split]].
  - intros HL. unfold LPC2021_frames, unpack_L.
    rewrite unpack_bytes_short by (fold L; lia). reflexivity.
  - intros HL. rewrite LPC2021_frames_start by (fold L; lia). fold L.
    assert (Z.quot (L - 96) 96 <= 0) as Hq.
    { destruct (Z_lt_ge_dec L 96) as [Hs | Hl].
      - apply Z.quot_le_upper_bound; lia.
      - rewrite Z.quot_div_nonneg by lia.
        rewrite Z.div_small by lia. lia. }
    rewrite range_from_0.
    replace (Z.to_nat (Z.quot (L - 96) 96)) with 0%nat by lia.
    reflexivity.
  - apply LPC2021_frames_whole.
  - intros HL Hrem.
    rewrite LPC2021_frames_start by (fold L; lia). fold L.
    rewrite frame_count_2021 by lia.
    rewrite range_from_0.
    assert (2 <= L / 96) as Hq by (apply Z.div_le_lower_bound; lia).
    pose proof (Z.div_mod L 96 ltac:(lia)) as Hdm.
    pose proof (Z.mod_pos_bound L 96 ltac:(lia)) as Hmod.
    replace (Z.to_nat (L / 96 - 1))
      with (Z.to_nat (L / 96 - 2) + 1)%nat by lia.
    rewrite seq_app, map_app. cbn [seq map Nat.add].
    apply (mapM_Raise _ _ []
             (map (frame_at (msg_of_payload data))
                  (seq 0 (Z.to_nat (L / 96 - 2))))).
    + apply mapM_map_Ok. intros y Hy. apply in_seq in Hy.
      apply unpack_frame_at. cbn [bindata msg_of_payload]. fold L. lia.
    + apply unpack_frame_fails; cbn [bindata msg_of_payload]; fold L; lia.
Qed.

(** On binary sections of 228 and of 192 bytes. *)
Lemma LPC2021_frames_on_228_and_192_bytes :
  LPC2021_frames lpc_payload_228
  = Ok [frame_at (msg_of_payload lpc_payload_228) 0]
  /\ LPC2021_frames lpc_payload_192 = Raise StructError.
Proof.
  split.
  - rewrite (proj1 (proj2 (proj2 (LPC2021_frames_by_length lpc_payload_228))))
      by (vm_compute; discriminate).
    reflexivity.
  - apply (proj2 (proj2 (proj2 (LPC2021_frames_by_length lpc_payload_192))));
      [vm_compute; discriminate | vm_compute; reflexivity].
Defined.

(** X18. On the same payload, with at least 192 bytes and [len mod 96] at
    least 36, the frame loop of readLPCXML_2021 returns the frames of
    [LPCmsg.unpackBinary] followed by one more frame: the two decoders agree
    on offsets and conversions and differ by one in the count. *)
Theorem LPC2021_frames_extend_unpackBinary (data : list byte) :
  192 <= len data -> 36 <= len data mod 96 ->
  exists (frames : list LPCFrame) (last_frame : LPCFrame),
    unpackBinary (msg_of_payload data) = Ok frames
    /\ LPC2021_frames data = Ok (frames ++ [last_frame])
    /\ last_frame
       = frame_at (msg_of_payload data) (Z.to_nat (len data / 96 - 2)).
Proof.
  intros HL Hrem.
  assert (2 <= len data / 96) as Hq by (apply Z.div_le_lower_bound; lia).
  eexists. eexists.
  split; [apply (unpackBinary_eq (msg_of_payload data)); exact HL |].
  split; [| reflexivity].
  rewrite (LPC2021_frames_whole data HL Hrem).
  cbn [bindata msg_of_payload].
  replace (Z.to_nat (len data / 96 - 1))
    with (Z.to_nat (len data / 96 - 2) + 1)%nat by lia.
  rewrite seq_app, map_app. reflexivity.
Qed.

(** On the binary section of 228 bytes: no frame for [unpackBinary], one for
    the loop of readLPCXML_2021. *)
Lemma LPC2021_frames_extend_on_228_bytes :
  unpackBinary (msg_of_payload lpc_payload_228) = Ok []
  /\ exists last_frame : LPCFrame,
       LPC2021_frames lpc_payload_228 = Ok [last_frame].
Proof.
  destruct (LPC2021_frames_extend_unpackBinary lpc_payload_228)
    as (frames & last_frame & Hu & H21 & _);
    [vm_compute; discriminate | vm_compute; discriminate |].
  assert (unpackBinary (msg_of_payload lpc_payload_228) = Ok []) as Hu0.
  { rewrite (unpackBinary_eq (msg_of_payload lpc_payload_228))
      by (vm_compute; discriminate).
    reflexivity. }
  rewrite Hu0 in Hu. injection Hu as <-.
  split; [reflexivity |]. exists last_frame. exact H21.
Defined.
